(** * Article extraction from newsletter HTML

    A shallow embedding of [src/processors/extractor.py] (class
    [ArticleExtractor]) together with the two constants of [config.py] it
    reads.  Python strings are sequences of Unicode code points; the parsed
    document is the tree that bs4 hands to the extractor. *)

From Stdlib Require Import NArith String Ascii Lia.
From stdpp Require Import base decidable option list gmap.

Local Open Scope list_scope.

(** ** Python strings *)

(** A [str] is a list of code points. *)
Abbreviation pystr := (list N).

(** Literals are written as Rocq strings and read byte by byte (ASCII). *)
Definition py (s : string) : pystr :=
  List.map N_of_ascii (list_ascii_of_string s).

Definition str_eqb (a b : pystr) : bool := bool_decide (a = b).

(** [str.isspace] on one code point, the table CPython uses for
    [str.strip()], [str.split()] and the regular expression class [\s]. *)
Definition isspace (c : N) : bool :=
  (((9 <=? c) && (c <=? 13)) || ((28 <=? c) && (c <=? 32))
   || (c =? 133) || (c =? 160) || (c =? 5760)
   || ((8192 <=? c) && (c <=? 8202))
   || (c =? 8232) || (c =? 8233) || (c =? 8239) || (c =? 8287)
   || (c =? 12288))%N.

Section Strip.
Variable drop_it : N -> bool.

Fixpoint lstrip_by (s : pystr) : pystr :=
  match s with
  | c :: s' => if drop_it c then lstrip_by s' else s
  | [] => []
  end.

Definition rstrip_by (s : pystr) : pystr := rev (lstrip_by (rev s)).

Definition strip_by (s : pystr) : pystr := rstrip_by (lstrip_by s).
End Strip.

(** [s.strip()] *)
Definition strip (s : pystr) : pystr := strip_by isspace s.

(** [s.strip('/')] and the like, for a one-character argument. *)
Definition strip_char (ch : N) (s : pystr) : pystr := strip_by (N.eqb ch) s.

(** [s.startswith(p)] *)
Fixpoint startswith (s p : pystr) : bool :=
  match p, s with
  | [], _ => true
  | _ :: _, [] => false
  | a :: p', b :: s' => (a =? b)%N && startswith s' p'
  end.

(** [sub in s] *)
Fixpoint contains (sub s : pystr) : bool :=
  startswith s sub ||
  match s with
  | [] => false
  | _ :: s' => contains sub s'
  end.

(** [s.split()]: the maximal runs of non-whitespace characters. *)
Fixpoint split_ws_from (cur : pystr) (s : pystr) : list pystr :=
  match s with
  | [] => match cur with [] => [] | _ => [rev cur] end
  | c :: s' =>
      if isspace c
      then match cur with
           | [] => split_ws_from [] s'
           | _ => rev cur :: split_ws_from [] s'
           end
      else split_ws_from (c :: cur) s'
  end.

Definition split_ws (s : pystr) : list pystr := split_ws_from [] s.

(** [s.split(sep)] for a one-character separator: never the empty list. *)
Fixpoint split_on (sep : N) (s : pystr) : list pystr :=
  match s with
  | [] => [[]]
  | c :: s' =>
      if (c =? sep)%N then [] :: split_on sep s'
      else match split_on sep s' with
           | h :: t => (c :: h) :: t
           | [] => [[c]]
           end
  end.

(** What follows the first [sep] of [s], if there is one. *)
Fixpoint after_first (sep : N) (s : pystr) : option pystr :=
  match s with
  | [] => None
  | c :: s' => if (c =? sep)%N then Some s' else after_first sep s'
  end.

(** [s.rsplit(sep, 1)[0]]: what precedes the last [sep]; all of [s] when
    it has none. *)
Definition rsplit1_head (sep : N) (s : pystr) : pystr :=
  match after_first sep (rev s) with
  | Some r => rev r
  | None => s
  end.

(** [re.sub(r'\s+', ' ', s)]: every maximal whitespace run becomes one
    space.  [in_run] says that the previous character was whitespace. *)
Fixpoint collapse_from (in_run : bool) (s : pystr) : pystr :=
  match s with
  | [] => []
  | c :: s' =>
      if isspace c
      then if in_run then collapse_from true s' else 32%N :: collapse_from true s'
      else c :: collapse_from false s'
  end.

Definition collapse_ws (s : pystr) : pystr := collapse_from false s.

(** [sep.join(parts)] *)
Fixpoint join (sep : pystr) (parts : list pystr) : pystr :=
  match parts with
  | [] => []
  | [p] => p
  | p :: rest => p ++ sep ++ join sep rest
  end.

(** Truthiness of a [str]. *)
Definition nonempty (s : pystr) : bool :=
  match s with [] => false | _ => true end.

(** [x or ''] for an optional string. *)
Definition or_empty (o : option pystr) : pystr := default [] o.

(** ** The parsed document *)

(** The tree bs4 builds: text nodes and tags.  A tag carries its name
    (lower case, as the HTML parser delivers it), its attribute dictionary
    and its contents in document order.  The [BeautifulSoup] object at the
    root is itself a tag, whose parent is [None]. *)
#[warnings="-register-all"]
Inductive node : Type :=
| NavigableString (s : pystr)
| Tag (name : pystr) (attrs : list (pystr * pystr)) (contents : list node).

(** [tag.get(key)] *)
Fixpoint get_attr (key : pystr) (attrs : list (pystr * pystr)) : option pystr :=
  match attrs with
  | [] => None
  | (k, v) :: rest => if str_eqb k key then Some v else get_attr key rest
  end.

(** A reference to an element of the tree: the element with the chain of
    its [.parent]s, nearest first, ending at the root object. *)
Definition element : Type := node * list node.

(** [n.descendants], in document order, each with its parents;
    [parents] are those of [n] itself. *)
Fixpoint descendants_of (parents : list node) (n : node) : list element :=
  match n with
  | NavigableString _ => []
  | Tag _ _ cs =>
      flat_map (fun c => (c, n :: parents) :: descendants_of (n :: parents) c) cs
  end.

Definition descendants (n : node) : list node :=
  List.map fst (descendants_of [] n).

(** [n.children] *)
Definition children (n : node) : list node :=
  match n with
  | NavigableString _ => []
  | Tag _ _ cs => cs
  end.

Definition is_tag_named (nm : pystr) (n : node) : bool :=
  match n with
  | Tag name _ _ => str_eqb name nm
  | NavigableString _ => false
  end.

(** [soup.find(nm)]: the first tag of that name below the root. *)
Definition find (nm : pystr) (n : node) : option node :=
  List.find (is_tag_named nm) (descendants n).

Definition is_anchor_with_href (n : node) : bool :=
  match n with
  | Tag name attrs _ =>
      str_eqb name (py "a") &&
      match get_attr (py "href") attrs with Some _ => true | None => false end
  | NavigableString _ => false
  end.

(** [n.find_all('a', href=True)], each anchor with its parents. *)
Definition find_all_a_href_of (parents : list node) (n : node) : list element :=
  List.filter (fun e => is_anchor_with_href (fst e)) (descendants_of parents n).

(** [a['href']] *)
Definition href (n : node) : pystr :=
  match n with
  | Tag _ attrs _ => or_empty (get_attr (py "href") attrs)
  | NavigableString _ => []
  end.

(** The strings [get_text] joins: with [strip=True] every text node is
    stripped and dropped when nothing is left. *)
Definition all_strings (strip_ : bool) (n : node) : list pystr :=
  flat_map
    (fun d =>
       match d with
       | NavigableString s =>
           if strip_
           then (let s' := strip s in if nonempty s' then [s'] else [])
           else [s]
       | Tag _ _ _ => []
       end)
    (descendants n).

(** [n.get_text(separator=..., strip=...)] *)
Definition get_text (separator : pystr) (strip_ : bool) (n : node) : pystr :=
  join separator (all_strings strip_ n).

(** ** What the extractor imports

    Three functions come from outside the repository: [str.lower] (full
    Unicode case mapping), [urllib.parse.urlparse] (only its [.path] is read;
    [None] stands for the [ValueError] it can raise) and the bs4 constructor
    with the [html.parser] tree builder. *)
Class Externals : Type := {
  lower : pystr -> pystr;
  urlparse_path : pystr -> option pystr;
  BeautifulSoup : pystr -> node;
}.

(** ** Constants *)

(** [config.MIN_WORD_COUNT] *)
Definition MIN_WORD_COUNT : nat := 100.

(** [config.ESSAY_NEWSLETTERS] *)
Definition ESSAY_NEWSLETTERS : list pystr :=
  [py "stratechery"; py "hanania"; py "clouded judgement"; py "dwarkesh"].

Definition PAYWALL_PHRASES : list pystr :=
  [py "subscribe to read"; py "paywall"; py "premium content";
   py "unlock this article"; py "sign up to continue"; py "member only";
   py "paid subscribers only"; py "read the full article";
   py "continue reading"; py "behind a paywall"; py "premium member";
   py "subscription required"].

Definition NOISE_PATH_SEGMENTS : gset pystr :=
  list_to_set
    [py "disclaimer"; py "legal"; py "terms"; py "privacy"; py "cookie";
     py "unsubscribe"; py "preferences"; py "settings"; py "about";
     py "contact"; py "careers"; py "investors"; py "ir"; py "press";
     py "login"; py "signup"; py "register"; py "help"; py "support";
     py "faq"; py "sitemap"; py "robots"; py "policy"; py "policies"].

Definition NOISE_ANCHOR_PHRASES : list pystr :=
  [py "disclaimer"; py "terms of"; py "privacy policy"; py "cookie";
   py "unsubscribe"; py "view in browser"; py "read in browser";
   py "click here to unsubscribe"; py "manage preferences";
   py "forward this email"; py "view online"; py "web version"].

Definition MAX_BLURB_CHARS : nat := 600.

(** The tuple both [_is_noise_url] and [_score_link] scan the URL for. *)
Definition NOISE_DOMAINS : list pystr :=
  [py "twitter.com"; py "facebook.com"; py "instagram.com";
   py "linkedin.com"; py "youtube.com"; py "mailto:"; py "javascript:"].

(** [article_signals] of [_score_link] *)
Definition article_signals : list pystr :=
  [py "article"; py "post"; py "story"; py "news"; py "blog"; py "opinion";
   py "analysis"].

(** The horizontal ellipsis U+2026 after a space: [' …']. *)
Definition ELLIPSIS_MARKER : pystr := [32%N; 8230%N].

(** ** Article dictionaries *)

(** One article [dict].  The strategies create it with the first eight
    keys; the five keys below them are absent ([None] here) until
    [extract_from_email] stamps them. *)
Record Article : Type := {
  title : pystr;
  url : pystr;
  content : pystr;
  blurb : pystr;
  content_snippet : pystr;
  word_count : nat;
  author : option pystr;
  publish_date : option pystr;
  newsletter_name : option pystr;
  newsletter_email : option pystr;
  received_timestamp : option pystr;
  paywall_detected : option bool;
  article_type : option pystr;
}.

(** The bucket [_extract_by_sections] fills between two headings
    ([author] and [publish_date] are always [None] in it). *)
Record Bucket : Type := {
  b_title : pystr;
  b_url : pystr;
  b_raw_text : pystr;
}.

Definition SPACE : pystr := [32%N].

(** ** The extractor *)

Section Extractor.
Context {ext : Externals}.

(** *** Blurb and finalisation *)

Definition _extract_blurb (content title : pystr) : pystr :=
  let blurb := strip content in
  let blurb :=
    if startswith (lower blurb) (lower title)
    then strip (drop (length title) blurb)
    else blurb in
  let blurb := strip (collapse_ws blurb) in
  if (MAX_BLURB_CHARS <? length blurb)%nat
  then rsplit1_head 32%N (take MAX_BLURB_CHARS blurb) ++ ELLIPSIS_MARKER
  else blurb.

Definition _finalise (bucket : Bucket) : Article :=
  let content := strip (collapse_ws (b_raw_text bucket)) in
  let title := b_title bucket in
  let blurb := content in
  let blurb :=
    if startswith (lower blurb) (lower title)
    then strip (drop (length title) blurb)
    else blurb in
  let blurb := strip (collapse_ws blurb) in
  let blurb :=
    if (MAX_BLURB_CHARS <? length blurb)%nat
    then rsplit1_head 32%N (take MAX_BLURB_CHARS blurb) ++ ELLIPSIS_MARKER
    else blurb in
  {| title := title;
     url := b_url bucket;
     content := content;
     blurb := blurb;
     content_snippet := take 500 content;
     word_count := length (split_ws content);
     author := None;
     publish_date := None;
     newsletter_name := None;
     newsletter_email := None;
     received_timestamp := None;
     paywall_detected := None;
     article_type := None |}.

(** *** URL and noise helpers *)

(** [urlparse(lower_url).path.strip('/').split('/')], and [[]] when
    [urlparse] raises. *)
Definition path_parts_of (lower_url : pystr) : list pystr :=
  match urlparse_path lower_url with
  | Some path => split_on 47%N (strip_char 47%N path)
  | None => []
  end.

Definition _is_noise_url (url anchor_text : pystr) : bool :=
  let lower_url := lower url in
  let lower_text := lower anchor_text in
  if existsb (fun domain => contains domain lower_url) NOISE_DOMAINS
  then true
  else
    let path_parts := path_parts_of lower_url in
    if existsb (fun seg => bool_decide (seg ∈ NOISE_PATH_SEGMENTS)) path_parts
    then true
    else if existsb (fun phrase => contains phrase lower_text)
                    NOISE_ANCHOR_PHRASES
    then true
    else false.

Definition _score_link (url anchor_text : pystr) : nat :=
  let lower_url := lower url in
  let lower_text := lower anchor_text in
  if existsb (fun domain => contains domain lower_url) NOISE_DOMAINS
  then 0
  else
    let path_parts := path_parts_of lower_url in
    if existsb (fun seg => bool_decide (seg ∈ NOISE_PATH_SEGMENTS)) path_parts
    then 0
    else if existsb (fun phrase => contains phrase lower_text)
                    NOISE_ANCHOR_PHRASES
    then 0
    else
      let score := 1 in
      let words := length (split_ws anchor_text) in
      let score :=
        if (4 <=? words)%nat then score + 3
        else if (2 <=? words)%nat then score + 1
        else score in
      let depth := length (List.filter nonempty path_parts) in
      let score :=
        if (3 <=? depth)%nat then score + 2
        else if (2 <=? depth)%nat then score + 1
        else score in
      let score :=
        if existsb (fun sig => contains sig lower_url) article_signals
        then score + 2
        else score in
      score.

(** One turn of the loop of [_best_link_in]; the state is
    [(best_url, best_score)]. *)
Definition best_link_step (st : option pystr * nat) (a : node)
  : option pystr * nat :=
  let '(best_url, best_score) := st in
  let url := strip (href a) in
  if negb (startswith url (py "http")) then st
  else
    let text := get_text [] true a in
    let score := _score_link url text in
    if (best_score <? score)%nat then (Some url, score) else st.

Definition _best_link_in (element : node) : option pystr :=
  match element with
  | NavigableString _ => None
  | Tag _ _ _ =>
      fst (fold_left best_link_step
             (List.map fst (find_all_a_href_of [] element)) (None, 0))
  end.

Definition _detect_paywall (text : pystr) : bool :=
  let lower_ := lower text in
  existsb (fun phrase => contains phrase lower_) PAYWALL_PHRASES.

(** *** Strategy 1: section-based *)

Definition is_heading (name : pystr) : bool :=
  str_eqb name (py "h2") || str_eqb name (py "h3").

(** One turn of the loop over [body.children]; the state is
    [(articles, current)]. *)
Definition sections_step (st : list Article * option Bucket) (element : node)
  : list Article * option Bucket :=
  let '(articles, current) := st in
  match element with
  | NavigableString s =>
      match current with
      | Some cur =>
          (articles,
           Some {| b_title := b_title cur;
                   b_url := b_url cur;
                   b_raw_text := b_raw_text cur ++ strip s ++ SPACE |})
      | None => st
      end
  | Tag name _ _ =>
      if is_heading name
      then
        let articles :=
          match current with
          | Some cur => articles ++ [_finalise cur]
          | None => articles
          end in
        let title := get_text [] true element in
        let link := _best_link_in element in
        (articles,
         Some {| b_title := title; b_url := or_empty link; b_raw_text := [] |})
      else
        match current with
        | Some cur =>
            let raw := b_raw_text cur ++ get_text SPACE true element ++ SPACE in
            let url :=
              if nonempty (b_url cur) then b_url cur
              else or_empty (_best_link_in element) in
            (articles,
             Some {| b_title := b_title cur; b_url := url; b_raw_text := raw |})
        | None => st
        end
  end.

Definition _extract_by_sections (soup : node) : list Article :=
  let body := default soup (find (py "body") soup) in
  let '(articles, current) := fold_left sections_step (children body) ([], None) in
  let articles :=
    match current with
    | Some cur => articles ++ [_finalise cur]
    | None => articles
    end in
  List.filter (fun a => (0 <? word_count a)%nat) articles.

(** *** Strategy 2: link-based *)

Definition is_block (n : node) : bool :=
  match n with
  | Tag name _ _ =>
      existsb (str_eqb name)
        [py "td"; py "div"; py "section"; py "article"; py "li"; py "p"]
  | NavigableString _ => false
  end.

(** The [for _ in range(5)] walk towards the root; [parents] is the
    chain of [.parent]s of [content_block]. *)
Fixpoint walk_up (turns : nat) (content_block : node) (parents : list node)
  : node :=
  match turns with
  | O => content_block
  | S turns' =>
      match parents with
      | [] => content_block
      | parent :: above =>
          if is_block parent then parent else walk_up turns' parent above
      end
  end.

(** One turn of the loop over the anchors; the state is
    [(articles, seen_urls)]. *)
Definition links_step (st : list Article * gset pystr) (a_tag : element)
  : list Article * gset pystr :=
  let '(articles, seen_urls) := st in
  let url := strip (href (fst a_tag)) in
  if negb (startswith url (py "http")) then st
  else if _is_noise_url url (get_text [] true (fst a_tag)) then st
  else if bool_decide (url ∈ seen_urls) then st
  else
    let seen_urls := {[url]} ∪ seen_urls in
    let title := get_text [] true (fst a_tag) in
    if negb (nonempty title) || (length title <? 10)%nat
    then (articles, seen_urls)
    else
      let content_block := walk_up 5 (fst a_tag) (snd a_tag) in
      let content := get_text SPACE true content_block in
      (articles ++
         [{| title := title;
             url := url;
             content := content;
             blurb := _extract_blurb content title;
             content_snippet := take 500 content;
             word_count := length (split_ws content);
             author := None;
             publish_date := None;
             newsletter_name := None;
             newsletter_email := None;
             received_timestamp := None;
             paywall_detected := None;
             article_type := None |}],
       seen_urls).

Definition _extract_by_links (soup : node) : list Article :=
  fst (fold_left links_step (find_all_a_href_of [] soup) ([], ∅)).

(** *** Strategy 3: fallback *)

(** The [for line in text.split('\n')] loop: the first stripped line
    whose length lies strictly between 10 and 120. *)
Fixpoint first_title_line (lines : list pystr) : option pystr :=
  match lines with
  | [] => None
  | line :: rest =>
      let line := strip line in
      if (10 <? length line)%nat && (length line <? 120)%nat
      then Some line
      else first_title_line rest
  end.

Definition _extract_fallback (soup : node) : list Article :=
  let text := get_text SPACE true soup in
  let text := strip (collapse_ws text) in
  let title := default (py "Newsletter") (first_title_line (split_on 10%N text)) in
  [{| title := title;
      url := [];
      content := text;
      blurb := [];
      content_snippet := take 500 text;
      word_count := length (split_ws text);
      author := None;
      publish_date := None;
      newsletter_name := None;
      newsletter_email := None;
      received_timestamp := None;
      paywall_detected := None;
      article_type := None |}].

(** *** Classification *)

Definition _is_essay_newsletter (newsletter_name : pystr) : bool :=
  let name_lower := lower newsletter_name in
  existsb (fun kw => contains kw name_lower) ESSAY_NEWSLETTERS.

(** [newsletter_email.split('@')[1]], read only when the address has
    an ['@']. *)
Definition split_at_1 (newsletter_email : pystr) : pystr :=
  nth 1 (split_on 64%N newsletter_email) [].

Definition _classify (article : Article) (newsletter_email : pystr)
           (force_essay : bool) : pystr :=
  if force_essay then py "essay"
  else
    let url := strip (url article) in
    if negb (nonempty url) then py "essay"
    else if contains [64%N] newsletter_email
            && contains (lower (split_at_1 newsletter_email)) (lower url)
    then py "essay"
    else py "link".

(** *** Public entry point *)

(** The strategies in order: the next one runs only when the list so
    far is empty. *)
Definition run_strategies (soup : node) : list Article :=
  let articles := _extract_by_sections soup in
  let articles :=
    match articles with [] => _extract_by_links soup | _ => articles end in
  let articles :=
    match articles with [] => _extract_fallback soup | _ => articles end in
  articles.

(** The body of the stamping loop for one article. *)
Definition stamp (newsletter_name newsletter_email received_timestamp : pystr)
           (force_essay : bool) (a : Article) : Article :=
  {| title := title a;
     url := url a;
     content := content a;
     blurb := blurb a;
     content_snippet := content_snippet a;
     word_count := word_count a;
     author := author a;
     publish_date := publish_date a;
     newsletter_name := Some newsletter_name;
     newsletter_email := Some newsletter_email;
     received_timestamp := Some received_timestamp;
     paywall_detected := Some (_detect_paywall (content a));
     article_type := Some (_classify a newsletter_email force_essay) |}.

(** Stamp, classify and filter [articles]. *)
Definition stamp_and_filter
           (newsletter_name newsletter_email received_timestamp : pystr)
           (articles : list Article) : list Article :=
  let force_essay := _is_essay_newsletter newsletter_name in
  List.filter (fun a => (MIN_WORD_COUNT <=? word_count a)%nat)
    (List.map (stamp newsletter_name newsletter_email received_timestamp
                 force_essay) articles).

Definition extract_from_email
           (html_content newsletter_name newsletter_email
              received_timestamp : pystr) : list Article :=
  if negb (nonempty html_content) then []
  else
    let soup := BeautifulSoup html_content in
    stamp_and_filter newsletter_name newsletter_email received_timestamp
      (run_strategies soup).

End Extractor.

(** ** Running the extractor

    To evaluate the extractor the three imported functions need values.
    On ASCII text [str.lower] maps [A-Z] to [a-z]; for URLs of the shape
    [scheme://netloc/path;params?query#fragment] the path is what lies
    between the network location and the first of [;] (in the last
    segment), [?] and [#]. *)

Definition ascii_lower (s : pystr) : pystr :=
  List.map (fun c => if ((65 <=? c) && (c <=? 90))%N then (c + 32)%N else c) s.

Definition is_scheme_char (c : N) : bool :=
  (((97 <=? c) && (c <=? 122)) || ((65 <=? c) && (c <=? 90))
   || ((48 <=? c) && (c <=? 57)) || (c =? 43) || (c =? 45) || (c =? 46))%N.

(** [s] up to, and without, the first character satisfying [stop]. *)
Fixpoint take_until (stop : N -> bool) (s : pystr) : pystr :=
  match s with
  | [] => []
  | c :: s' => if stop c then [] else c :: take_until stop s'
  end.

Fixpoint drop_until (stop : N -> bool) (s : pystr) : pystr :=
  match s with
  | [] => []
  | c :: s' => if stop c then s else drop_until stop s'
  end.

Definition url_path (url : pystr) : option pystr :=
  let scheme := take_until (N.eqb 58%N) url in
  let rest :=
    if contains [58%N] url && nonempty scheme && forallb is_scheme_char scheme
    then drop (S (length scheme)) url
    else url in
  let rest :=
    if startswith rest (py "//")
    then drop_until (fun c => (c =? 47) || (c =? 63) || (c =? 35))%N (drop 2 rest)
    else rest in
  let path := take_until (fun c => (c =? 63) || (c =? 35))%N rest in
  let last_segment := rev (take_until (N.eqb 47%N) (rev path)) in
  let params := drop_until (N.eqb 59%N) last_segment in
  Some (take (length path - length params) path).

(** The imported functions, where the parser answers [doc] for the text
    [html] and an empty document for any other text. *)
Definition parsed_as (html : pystr) (doc : node) : Externals :=
  {| lower := ascii_lower;
     urlparse_path := url_path;
     BeautifulSoup :=
       fun h => if str_eqb h html then doc else Tag (py "[document]") [] [] |}.

(** The same without a document, for the functions that read none. *)
Definition strings_only : Externals := parsed_as [] (Tag (py "[document]") [] []).

(** *** Building documents *)

Definition text (s : string) : node := NavigableString (py s).

Definition el (name : string) (contents : list node) : node :=
  Tag (py name) [] contents.

Definition anchor (target label : string) : node :=
  Tag (py "a") [(py "href", py target)] [text label].

(** [n] copies of [word ] in one string. *)
Definition words_of (n : nat) (word : string) : node :=
  NavigableString (concat (repeat (py word ++ SPACE) n)).

Definition document (contents : list node) : node :=
  Tag (py "[document]") [] [el "html" [el "body" contents]].

(** ** Vocabulary of the statements *)

(** A URL an article may carry: none, or one that starts with [http]. *)
Definition url_ok (u : pystr) : Prop :=
  u = [] \/ startswith u (py "http") = true.

(** What the section loop keeps true of its state [(articles, current)]. *)
Definition sections_urls_ok (st : list Article * option Bucket) : Prop :=
  Forall (fun a => url_ok (url a)) (fst st) /\
  forall cur, snd st = Some cur -> url_ok (b_url cur).

(** The document has a level-2 or level-3 heading somewhere. *)
Definition has_heading (doc : node) : bool :=
  existsb (fun n => is_tag_named (py "h2") n || is_tag_named (py "h3") n)
    (descendants doc).


(** An occurrence of the URL [u] in the link-based scan: an anchor whose
    stripped target is [u], starts with [http] and passes the noise test
    under its own anchor text. *)
Definition is_occurrence {ext : Externals} (u : pystr) (a_tag : element) : bool :=
  let url := strip (href (fst a_tag)) in
  str_eqb url u && startswith url (py "http")
  && negb (_is_noise_url url (get_text [] true (fst a_tag))).

(** The first such anchor of the document, in document order. *)
Definition first_occurrence {ext : Externals} (u : pystr) (soup : node)
  : option element :=
  List.find (is_occurrence u) (find_all_a_href_of [] soup).

(** The state [(articles, seen_urls)] of the link loop before the first
    occurrence of [u] is met, and from then on when that occurrence is
    dropped. *)
Definition url_unseen (u : pystr) (st : list Article * gset pystr) : Prop :=
  (forall a, In a (fst st) -> url a ∈ snd st) /\ u ∉ snd st.

Definition url_blocked (u : pystr) (st : list Article * gset pystr) : Prop :=
  (forall a, In a (fst st) -> url a <> u) /\ u ∈ snd st.

(** *** Example documents *)

(** A heading and a linked paragraph, both inside a [div]. *)
Definition html_nested_heading : pystr :=
  py "<html><body><div><h2>Top stories</h2><p><a href='https://example.com/news/2026/markets-report'>Markets rallied today on earnings</a>"
  ++ concat (repeat (py "word ") 100)
  ++ py "</p></div></body></html>".

Definition doc_nested_heading : node :=
  document
    [el "div"
       [el "h2" [text "Top stories"];
        el "p"
          [anchor "https://example.com/news/2026/markets-report"
             "Markets rallied today on earnings";
           words_of 100 "word"]]].

Definition mail_nested_heading : Externals :=
  parsed_as html_nested_heading doc_nested_heading.

(** Two sections under top-level headings, the first with a link in its
    heading, the second with a relative link in its text. *)
Definition html_sections : pystr :=
  py "<html><body><h2><a href='https://example.com/story1'>Big News Story</a></h2><p>"
  ++ concat (repeat (py "take ") 120)
  ++ py "</p><h3>Thoughts on AI</h3><p>"
  ++ concat (repeat (py "essay ") 150)
  ++ py "<a href='/relative/path'>A relative link here</a></p></body></html>".

Definition doc_sections : node :=
  document
    [el "h2" [anchor "https://example.com/story1" "Big News Story"];
     el "p" [words_of 120 "take"];
     el "h3" [text "Thoughts on AI"];
     el "p" [words_of 150 "essay"; anchor "/relative/path" "A relative link here"]].

Definition mail_sections : Externals := parsed_as html_sections doc_sections.

(** The same URL under two anchors, the first with a short text. *)
Definition html_short_first : pystr :=
  py "<html><body><p><a href='https://example.com/news/2026/markets-report'>Read it</a></p><p><a href='https://example.com/news/2026/markets-report'>Markets rallied today on earnings</a>"
  ++ concat (repeat (py "word ") 100)
  ++ py "</p></body></html>".

Definition doc_short_first : node :=
  document
    [el "p" [anchor "https://example.com/news/2026/markets-report" "Read it"];
     el "p"
       [anchor "https://example.com/news/2026/markets-report"
          "Markets rallied today on earnings";
        words_of 100 "word"]].

Definition mail_short_first : Externals :=
  parsed_as html_short_first doc_short_first.

(** One paragraph of two lines: a headline, a line feed, and 120 words. *)
Definition two_lines : pystr :=
  py "Weekly market notes" ++ [10%N]
  ++ concat (repeat (py "stocks rose again ") 39) ++ py "stocks rose again".

Definition html_two_lines : pystr :=
  py "<html><body><p>" ++ two_lines ++ py "</p></body></html>".

Definition doc_two_lines : node :=
  document [el "p" [NavigableString two_lines]].

Definition mail_two_lines : Externals := parsed_as html_two_lines doc_two_lines.

(** *** Long blurbs *)

(** 120 five-character steps [abcd ] and a last word: 604 characters, with
    a space as the 600th. *)
Definition content_space_at_limit : pystr :=
  concat (repeat (py "abcd ") 120) ++ py "tail".

(** One word of 601 characters. *)
Definition content_one_long_word : pystr := repeat 97%N 601.

(** *** The classifier's rules *)

(** An article dictionary of which only the [url] matters. *)
Definition article_with_url (u : pystr) : Article :=
  {| title := py "Deep Dive"; url := u; content := []; blurb := [];
     content_snippet := []; word_count := 0; author := None;
     publish_date := None; newsletter_name := None; newsletter_email := None;
     received_timestamp := None; paywall_detected := None;
     article_type := None |}.

(** What follows the ['@'] of an address, when it has one. *)
Definition domain_of (newsletter_email : pystr) : option pystr :=
  after_first 64%N newsletter_email.

(** The address has no second ['@']. *)
Definition at_most_one_at (newsletter_email : pystr) : Prop :=
  length (List.filter (N.eqb 64%N) newsletter_email) <= 1.

(** The rules read literally: the URL is tested for emptiness as it
    stands, and the domain is looked for in it as it stands. *)
Definition classify_as_worded {ext : Externals}
           (article : Article) (newsletter_email : pystr) (force_essay : bool)
  : pystr :=
  if force_essay then py "essay"
  else if negb (nonempty (url article)) then py "essay"
  else match domain_of newsletter_email with
       | Some d =>
           if contains (lower d) (lower (url article)) then py "essay"
           else py "link"
       | None => py "link"
       end.

(** *** The scorer's summands *)

Definition words_bonus (anchor_text : pystr) : nat :=
  let words := length (split_ws anchor_text) in
  if (4 <=? words)%nat then 3 else if (2 <=? words)%nat then 1 else 0.

(** The number of non-empty segments of the URL's path. *)
Definition path_depth {ext : Externals} (url : pystr) : nat :=
  length (List.filter nonempty (path_parts_of (lower url))).

Definition depth_bonus {ext : Externals} (url : pystr) : nat :=
  if (3 <=? path_depth url)%nat then 2
  else if (2 <=? path_depth url)%nat then 1 else 0.

Definition signal_bonus {ext : Externals} (url : pystr) : nat :=
  if existsb (fun sig => contains sig (lower url)) article_signals
  then 2 else 0.

(** The three ways a URL and its anchor text are noise. *)
Definition on_noise_domain {ext : Externals} (url : pystr) : Prop :=
  exists domain, In domain NOISE_DOMAINS /\ contains domain (lower url) = true.

Definition has_noise_segment {ext : Externals} (url : pystr) : Prop :=
  exists seg, In seg (path_parts_of (lower url)) /\ seg ∈ NOISE_PATH_SEGMENTS.

Definition has_noise_phrase {ext : Externals} (anchor_text : pystr) : Prop :=
  exists phrase,
    In phrase NOISE_ANCHOR_PHRASES /\ contains phrase (lower anchor_text) = true.

(** ** Vocabulary of the further properties *)

(** The dictionary [_extract_by_links] appends for an anchor. *)
Definition link_article {ext : Externals} (title url content : pystr) : Article :=
  {| title := title;
     url := url;
     content := content;
     blurb := _extract_blurb content title;
     content_snippet := take 500 content;
     word_count := length (split_ws content);
     author := None;
     publish_date := None;
     newsletter_name := None;
     newsletter_email := None;
     received_timestamp := None;
     paywall_detected := None;
     article_type := None |}.

(** Where an article of a strategy comes from: a finalised bucket, an
    anchor of the link-based scan, or the fallback. *)
Definition from_bucket {ext : Externals} (a : Article) : Prop :=
  exists bucket, a = _finalise bucket.

Definition from_anchor {ext : Externals} (a : Article) : Prop :=
  exists title url content,
    a = link_article title url content /\
    10 <= length title /\
    startswith url (py "http") = true /\
    _is_noise_url url title = false.

Definition from_fallback {ext : Externals} (soup : node) (a : Article) : Prop :=
  In a (_extract_fallback soup).

(** [soup.find('body') or soup] *)
Definition body_of (soup : node) : node :=
  default soup (find (py "body") soup).

(** The element is an [h2] or [h3] tag. *)
Definition is_heading_tag (n : node) : bool :=
  match n with
  | Tag name _ _ => is_heading name
  | NavigableString _ => false
  end.

(** The anchors [_best_link_in] scores: target and anchor text of every
    anchor below [element] whose stripped target starts with [http], in
    document order. *)
Definition link_candidates (element : node) : list (pystr * pystr) :=
  flat_map
    (fun a =>
       let url := strip (href a) in
       if startswith url (py "http") then [(url, get_text [] true a)] else [])
    (List.map fst (find_all_a_href_of [] element)).

Definition candidate_score {ext : Externals} (c : pystr * pystr) : nat :=
  _score_link (fst c) (snd c).

(** What the loop of [_best_link_in] keeps true of [(best_url, best_score)]
    after the candidates [seen]: nothing scored yet, or the first
    candidate of the highest score. *)
Definition best_so_far {ext : Externals} (seen : list (pystr * pystr))
           (st : option pystr * nat) : Prop :=
  match fst st with
  | None => snd st = 0 /\ Forall (fun c => candidate_score c = 0) seen
  | Some u =>
      exists before text after,
        seen = before ++ (u, text) :: after /\
        candidate_score (u, text) = snd st /\ 0 < snd st /\
        Forall (fun c => candidate_score c < snd st) before /\
        Forall (fun c => candidate_score c <= snd st) after
  end.

(** Every whitespace character of [s] is a space that a non-whitespace
    character follows. *)
Fixpoint spaced_ok (s : pystr) : bool :=
  match s with
  | [] => true
  | c :: s' =>
      if isspace c
      then (c =? 32)%N
           && match s' with [] => false | d :: _ => negb (isspace d) end
           && spaced_ok s'
      else spaced_ok s'
  end.

(** Words separated by single spaces: no whitespace but the space, none
    at either end and no two in a row. *)
Definition single_spaced (s : pystr) : bool :=
  match s with
  | [] => true
  | c :: _ => negb (isspace c) && spaced_ok s
  end.

(** The same where a space may come last, as [collapse_ws] leaves it. *)
Fixpoint runs_ok (s : pystr) : bool :=
  match s with
  | [] => true
  | c :: s' =>
      if isspace c
      then (c =? 32)%N
           && match s' with [] => true | d :: _ => negb (isspace d) end
           && runs_ok s'
      else runs_ok s'
  end.

(** The string is empty or starts with a non-whitespace character. *)
Definition starts_with_word (s : pystr) : bool :=
  match s with [] => true | c :: _ => negb (isspace c) end.

(** *** Further example documents *)

(** The two-section document with a preheader paragraph and a loose text
    in front of its first heading. *)
Definition doc_preamble : node :=
  document
    ([el "p" [text "View this email in your browser"]; text "Tech Daily"]
       ++ children (body_of doc_sections)).

(** An anchor inside [<p><span><b>...</b></span></p>], below a [div]. *)
Definition parents_span_p_div : list node :=
  [el "b" []; el "span" []; el "p" []; el "div" []].

(** *** The caller's two streams *)

(** [main.py] splits the collected articles by type:
    [[a for a in all_articles if a.get('article_type') == 'essay']] and the
    same for ['link']. *)
Definition essays_of (all_articles : list Article) : list Article :=
  List.filter (fun a => bool_decide (article_type a = Some (py "essay")))
    all_articles.

Definition links_of (all_articles : list Article) : list Article :=
  List.filter (fun a => bool_decide (article_type a = Some (py "link")))
    all_articles.

(** The arguments of one call of [extract_from_email]. *)
Record Email : Type := {
  html : pystr;
  sender_name : pystr;
  sender_email : pystr;
  received : pystr;
}.

(** The articles of a batch of emails, in order. *)
Definition extract_all {ext : Externals} (newsletters : list Email) : list Article :=
  flat_map
    (fun nl =>
       extract_from_email (html nl) (sender_name nl) (sender_email nl)
         (received nl))
    newsletters.

(** The state [(articles, current)] of the section loop holds at most one
    article or open bucket per heading met. *)
Definition at_most_one_per_heading (headings : nat)
           (st : list Article * option Bucket) : Prop :=
  length (fst st) + match snd st with Some _ => 1 | None => 0 end <= headings.

(** The email that carries the two-section document. *)
Definition email_sections : Email :=
  {| html := html_sections;
     sender_name := py "Tech Daily";
     sender_email := py "digest@techdaily.com";
     received := py "2026-01-05" |}.

(** *** The noise test read literally *)

(** The five social and video platforms among [NOISE_DOMAINS]. *)
Definition PLATFORM_DOMAINS : list pystr :=
  [py "twitter.com"; py "facebook.com"; py "instagram.com";
   py "linkedin.com"; py "youtube.com"].

(** Noise when the URL contains a platform domain, or a segment of its
    path is a noise segment, or the anchor text contains a noise phrase. *)
Definition is_noise_as_worded {ext : Externals} (url anchor_text : pystr) : bool :=
  existsb (fun domain => contains domain (lower url)) PLATFORM_DOMAINS
  || existsb (fun seg => bool_decide (seg ∈ NOISE_PATH_SEGMENTS))
       (path_parts_of (lower url))
  || existsb (fun phrase => contains phrase (lower anchor_text))
       NOISE_ANCHOR_PHRASES.

(** The score that goes with it: 0 on noise, the sum otherwise. *)
Definition score_as_worded {ext : Externals} (url anchor_text : pystr) : nat :=
  if is_noise_as_worded url anchor_text then 0
  else 1 + words_bonus anchor_text + depth_bonus url + signal_bonus url.

(** * Properties *)

(** ** Strings *)

Lemma nonempty_false (s : pystr) : nonempty s = false <-> s = [].
Proof. destruct s; simpl; split; congruence. Qed.

Lemma str_eqb_eq (a b : pystr) : str_eqb a b = true <-> a = b.
Proof. unfold str_eqb. apply bool_decide_eq_true. Qed.

(** ** The entry point *)

Section Facade.
Context {ext : Externals}.

Lemma stamp_and_filter_In n e t articles a :
  In a (stamp_and_filter n e t articles) <->
  exists a0, In a0 articles /\
             a = stamp n e t (_is_essay_newsletter n) a0 /\
             MIN_WORD_COUNT <= word_count a0.
Proof.
  unfold stamp_and_filter. rewrite filter_In, in_map_iff. split.
  - intros [(a0 & <- & Hin) Hwc]. exists a0. cbn [stamp word_count] in Hwc.
    apply Nat.leb_le in Hwc. auto.
  - intros (a0 & Hin & -> & Hwc). split; [eauto|].
    cbn [stamp word_count]. apply Nat.leb_le. exact Hwc.
Qed.

Lemma classify_essay_or_link a e f :
  _classify a e f = py "essay" \/ _classify a e f = py "link".
Proof.
  unfold _classify.
  destruct f; [auto|].
  destruct (negb _); [auto|].
  destruct (_ && _); auto.
Qed.

(** C7. Called with the empty string for [html_content],
    [extract_from_email] returns the empty list, whatever the other three
    arguments are; nothing is parsed and nothing can be raised. *)
Theorem extract_from_email_empty_html (name email stamp_ : pystr) :
  extract_from_email [] name email stamp_ = [].
Proof. reflexivity. Qed.

(** C2. Every article [extract_from_email] returns has at least
    [MIN_WORD_COUNT] words, and its [article_type] key is present with
    the value ['essay'] or ['link']. *)
Theorem returned_articles_long_enough_and_typed
        (html name email stamp_ : pystr) (a : Article) :
  In a (extract_from_email html name email stamp_) ->
  MIN_WORD_COUNT <= word_count a /\
  (article_type a = Some (py "essay") \/ article_type a = Some (py "link")).
Proof.
  unfold extract_from_email. destruct (negb _); [intros []|].
  rewrite stamp_and_filter_In. intros (a0 & _ & -> & Hwc).
  cbn [stamp word_count article_type].
  split; [exact Hwc|].
  destruct (classify_essay_or_link a0 email (_is_essay_newsletter name)) as [-> | ->];
    auto.
Qed.

End Facade.

(** ** Strategy precedence *)

Section Precedence.
Context {ext : Externals}.


End Precedence.


Section OnNestedHeading.
#[local] Existing Instance mail_nested_heading.


End OnNestedHeading.

(** ** The classifier *)

Lemma after_first_None (sep : N) (s : pystr) :
  after_first sep s = None <-> List.filter (N.eqb sep) s = [].
Proof.
  induction s as [|c s IH]; simpl; [tauto|].
  rewrite (N.eqb_sym sep c). destruct (c =? sep)%N; [split; discriminate|exact IH].
Qed.

Lemma startswith_nil (s : pystr) : startswith s [] = true.
Proof. destruct s; reflexivity. Qed.

Lemma contains_char (sep : N) (s : pystr) :
  contains [sep] s = true <-> after_first sep s <> None.
Proof.
  induction s as [|c s IH]; [simpl; split; [discriminate|congruence]|].
  cbn [contains startswith after_first]. rewrite startswith_nil.
  destruct (N.eqb_spec sep c) as [->|Hne].
  - rewrite N.eqb_refl. simpl. split; [discriminate|reflexivity].
  - destruct (N.eqb_spec c sep) as [->|_]; [congruence|]. simpl. exact IH.
Qed.

Lemma split_on_no_sep (sep : N) (s : pystr) :
  List.filter (N.eqb sep) s = [] -> split_on sep s = [s].
Proof.
  induction s as [|c s IH]; simpl; [reflexivity|].
  rewrite (N.eqb_sym sep c). destruct (c =? sep)%N; [discriminate|].
  intros Hs. rewrite (IH Hs). reflexivity.
Qed.

Lemma split_on_nonempty (sep : N) (s : pystr) : split_on sep s <> [].
Proof.
  destruct s as [|c s]; simpl; [discriminate|].
  destruct (c =? sep)%N; [discriminate|]. destruct (split_on sep s); discriminate.
Qed.

(** With one ['@'] in the address, [split('@')[1]] is what follows it. *)
Lemma split_at_1_domain (email d : pystr) :
  at_most_one_at email -> domain_of email = Some d -> split_at_1 email = d.
Proof.
  unfold at_most_one_at, domain_of, split_at_1.
  induction email as [|c s IH]; [discriminate|].
  cbn [List.filter after_first split_on].
  destruct (N.eqb_spec c 64%N) as [->|Hc].
  - rewrite N.eqb_refl. cbn [length nth]. intros Hlen [= ->].
    assert (Hd : List.filter (N.eqb 64%N) d = []).
    { destruct (List.filter (N.eqb 64%N) d); [reflexivity|simpl in Hlen; lia]. }
    rewrite (split_on_no_sep _ _ Hd). reflexivity.
  - destruct (N.eqb_spec 64%N c) as [E|_]; [congruence|].
    intros Hlen Hd. specialize (IH Hlen Hd).
    pose proof (split_on_nonempty 64%N s) as Hne.
    destruct (split_on 64%N s) as [|h t]; [congruence|exact IH].
Qed.

Section Classifier.
Context {ext : Externals}.

Lemma classify_rules (a : Article) (email : pystr) (force : bool) :
  at_most_one_at email ->
  (force = true -> _classify a email force = py "essay") /\
  (force = false -> strip (url a) = [] -> _classify a email force = py "essay") /\
  (forall d, force = false -> strip (url a) <> [] ->
             domain_of email = Some d ->
             contains (lower d) (lower (strip (url a))) = true ->
             _classify a email force = py "essay") /\
  (force = false -> strip (url a) <> [] ->
   (forall d, domain_of email = Some d ->
              contains (lower d) (lower (strip (url a))) = false) ->
   _classify a email force = py "link").
Proof.
  intros Hone. unfold _classify. repeat split.
  - intros ->. reflexivity.
  - intros -> ->. reflexivity.
  - intros d -> Hurl Hd Hin.
    destruct (strip (url a)) eqn:Hs; [congruence|]. cbn [nonempty negb].
    rewrite (split_at_1_domain _ _ Hone Hd), Hin.
    replace (contains [64%N] email) with true; [reflexivity|].
    symmetry. apply contains_char. unfold domain_of in Hd. congruence.
  - intros -> Hurl Hno.
    destruct (strip (url a)) eqn:Hs; [congruence|]. cbn [nonempty negb].
    destruct (contains [64%N] email) eqn:Hat; [|reflexivity].
    apply contains_char in Hat.
    destruct (domain_of email) as [d|] eqn:Hd; [|unfold domain_of in Hd; congruence].
    rewrite (split_at_1_domain _ _ Hone Hd), (Hno d eq_refl). reflexivity.
Qed.

End Classifier.

(** C3, as amended. The classifier applies its rules in order, first
    match first, for an address with at most one ['@']: ['essay'] when
    [force_essay] is set; else ['essay'] when the article's URL is empty once
    surrounding whitespace is stripped; else ['essay'] when the part of the
    address after ['@'], lower-cased, occurs in the stripped, lower-cased
    URL; otherwise ['link'].  In particular the address
    [author@mysubstack.substack.com] with the URL
    [https://mysubstack.substack.com/p/deep-dive] gives ['essay']. *)
Theorem classify_first_match_wins :
  (forall (ext : Externals) (a : Article) (email : pystr) (force : bool),
      at_most_one_at email ->
      (force = true -> _classify a email force = py "essay") /\
      (force = false -> strip (url a) = [] ->
       _classify a email force = py "essay") /\
      (forall d, force = false -> strip (url a) <> [] ->
                 domain_of email = Some d ->
                 contains (lower d) (lower (strip (url a))) = true ->
                 _classify a email force = py "essay") /\
      (force = false -> strip (url a) <> [] ->
       (forall d, domain_of email = Some d ->
                  contains (lower d) (lower (strip (url a))) = false) ->
       _classify a email force = py "link")) /\
  _classify (ext := strings_only)
    (article_with_url (py "https://mysubstack.substack.com/p/deep-dive"))
    (py "author@mysubstack.substack.com") false = py "essay".
Proof.
  split; [|vm_compute; reflexivity].
  intros ext a email force. apply classify_rules.
Qed.

(** C3, witness: the third rule at the self-hosted example. *)
Lemma classify_first_match_wins_witness :
  at_most_one_at (py "author@mysubstack.substack.com") /\
  _classify (ext := strings_only)
    (article_with_url (py "https://mysubstack.substack.com/p/deep-dive"))
    (py "author@mysubstack.substack.com") false = py "essay".
Proof.
  assert (Hone : at_most_one_at (py "author@mysubstack.substack.com"))
    by (vm_compute; lia).
  split; [exact Hone|].
  refine (proj1 (proj2 (proj2
            (proj1 classify_first_match_wins strings_only
               (article_with_url (py "https://mysubstack.substack.com/p/deep-dive"))
               (py "author@mysubstack.substack.com") false Hone)))
            (py "mysubstack.substack.com") eq_refl _ eq_refl eq_refl).
  vm_compute. discriminate.
Defined.

(** C3, counterexample. A URL of one space is not empty and contains no
    domain, so the rules as worded give ['link']; the classifier strips it
    first and answers ['essay']. *)
Lemma blank_url_is_essay_not_link :
  nonempty (url (article_with_url (py " "))) = true /\
  contains (py "example.com") (url (article_with_url (py " "))) = false /\
  classify_as_worded (ext := strings_only)
    (article_with_url (py " ")) (py "news@example.com") false = py "link" /\
  _classify (ext := strings_only)
    (article_with_url (py " ")) (py "news@example.com") false = py "essay".
Proof. repeat apply conj; vm_compute; reflexivity. Qed.

(** ** Noise and score *)

Section Scorer.
Context {ext : Externals}.

Lemma is_noise_url_iff (url text : pystr) :
  _is_noise_url url text = true <->
  on_noise_domain url \/ has_noise_segment url \/ has_noise_phrase text.
Proof.
  unfold _is_noise_url, on_noise_domain, has_noise_segment, has_noise_phrase.
  destruct (existsb (fun d => contains d (lower url)) NOISE_DOMAINS) eqn:Hd.
  { apply existsb_exists in Hd. tauto. }
  destruct (existsb (fun seg => bool_decide (seg ∈ NOISE_PATH_SEGMENTS))
              (path_parts_of (lower url))) eqn:Hs.
  { apply existsb_exists in Hs. destruct Hs as (seg & Hin & Hseg).
    apply bool_decide_eq_true in Hseg. split; [|reflexivity].
    intros _. right. left. eauto. }
  destruct (existsb (fun p => contains p (lower text)) NOISE_ANCHOR_PHRASES) eqn:Hp.
  { apply existsb_exists in Hp. tauto. }
  split; [discriminate|].
  intros [(d & Hin & Hc) | [(seg & Hin & Hseg) | (p & Hin & Hc)]]; exfalso.
  - assert (Ht : existsb (fun d => contains d (lower url)) NOISE_DOMAINS = true)
      by (apply existsb_exists; eauto).
    congruence.
  - assert (Ht : existsb (fun seg => bool_decide (seg ∈ NOISE_PATH_SEGMENTS))
                   (path_parts_of (lower url)) = true).
    { apply existsb_exists. exists seg. split; [exact Hin|].
      apply bool_decide_eq_true. exact Hseg. }
    congruence.
  - assert (Ht : existsb (fun p => contains p (lower text)) NOISE_ANCHOR_PHRASES
                 = true) by (apply existsb_exists; eauto).
    congruence.
Qed.

(** The score is 0 on noise and the sum of the four summands
    otherwise. *)
Lemma score_link_unfold (url text : pystr) :
  _score_link url text =
  if _is_noise_url url text then 0
  else 1 + words_bonus text + depth_bonus url + signal_bonus url.
Proof.
  unfold _score_link, _is_noise_url, words_bonus, depth_bonus, signal_bonus,
    path_depth.
  destruct (existsb _ NOISE_DOMAINS); [reflexivity|].
  destruct (existsb _ (path_parts_of (lower url))); [reflexivity|].
  destruct (existsb _ NOISE_ANCHOR_PHRASES); [reflexivity|].
  cbv zeta.
  repeat match goal with
         | |- context [if ?b then _ else _] => destruct b
         end; lia.
Qed.

(** C6, as amended. A URL with its anchor text is noise exactly when the
    lower-cased URL contains one of the seven entries of [NOISE_DOMAINS]
    (the five platform domains, [mailto:] or [javascript:]), or a segment of
    its path is in the noise-segment set, or the lower-cased anchor text
    contains a noise phrase.  A noise pair scores 0.  A pair that is not
    noise scores 1, plus 3 for an anchor text of four words or more (1 for
    two or three), plus 2 for a path of depth three or more (1 for depth
    two), plus 2 when the URL contains an article-signal keyword; so its
    score is positive. *)
Theorem noise_and_score (url text : pystr) :
  (_is_noise_url url text = true <->
   on_noise_domain url \/ has_noise_segment url \/ has_noise_phrase text) /\
  (_is_noise_url url text = true -> _score_link url text = 0) /\
  (_is_noise_url url text = false ->
   _score_link url text =
   1 + words_bonus text + depth_bonus url + signal_bonus url /\
   0 < _score_link url text).
Proof.
  split; [apply is_noise_url_iff|].
  rewrite score_link_unfold.
  split; intros ->; [reflexivity|]. split; [reflexivity|lia].
Qed.

End Scorer.

(** C6, witness: the URL [https://blog.example.com/2026/01/deep-dive]
    under the anchor text [A Deep Dive into Markets] is not noise and scores
    1 + 3 + 2 + 2. *)
Lemma noise_and_score_witness :
  _is_noise_url (ext := strings_only)
    (py "https://blog.example.com/2026/01/deep-dive")
    (py "A Deep Dive into Markets") = false /\
  _score_link (ext := strings_only)
    (py "https://blog.example.com/2026/01/deep-dive")
    (py "A Deep Dive into Markets") = 8 /\
  0 < _score_link (ext := strings_only)
        (py "https://blog.example.com/2026/01/deep-dive")
        (py "A Deep Dive into Markets").
Proof.
  assert (Hn : _is_noise_url (ext := strings_only)
                 (py "https://blog.example.com/2026/01/deep-dive")
                 (py "A Deep Dive into Markets") = false) by (vm_compute; reflexivity).
  pose proof (proj2 (proj2 (noise_and_score (ext := strings_only)
                              (py "https://blog.example.com/2026/01/deep-dive")
                              (py "A Deep Dive into Markets"))) Hn) as [Hs Hpos].
  split; [exact Hn|]. split; [|exact Hpos].
  rewrite Hs. vm_compute. reflexivity.
Defined.

(** C6, counterexample. The URL
    [https://example.com/go?next=javascript:void(0)] under the anchor text
    [Open the story now] names no platform domain, has the one path segment
    [go] and no noise phrase, so it is not noise as worded and would score
    1 + 3; it contains [javascript:], and the code answers noise, score 0. *)
Lemma javascript_url_is_noise :
  is_noise_as_worded (ext := strings_only)
    (py "https://example.com/go?next=javascript:void(0)")
    (py "Open the story now") = false /\
  score_as_worded (ext := strings_only)
    (py "https://example.com/go?next=javascript:void(0)")
    (py "Open the story now") = 4 /\
  contains (py "javascript:")
    (lower (Externals := strings_only)
       (py "https://example.com/go?next=javascript:void(0)")) = true /\
  _is_noise_url (ext := strings_only)
    (py "https://example.com/go?next=javascript:void(0)")
    (py "Open the story now") = true /\
  _score_link (ext := strings_only)
    (py "https://example.com/go?next=javascript:void(0)")
    (py "Open the story now") = 0.
Proof. repeat apply conj; vm_compute; reflexivity. Qed.

(** ** Loops *)

(** A property of the state that the first state has and every turn of a
    loop preserves holds of the last state. *)
Lemma fold_left_invariant {S X : Type} (P : S -> Prop) (f : S -> X -> S)
      (l : list X) (s : S) :
  P s -> (forall s x, In x l -> P s -> P (f s x)) -> P (fold_left f l s).
Proof.
  revert s. induction l as [|x l IH]; intros s Hs Hstep; [exact Hs|].
  simpl. apply IH.
  - apply Hstep; [left; reflexivity|exact Hs].
  - intros s' y Hy. apply Hstep. right. exact Hy.
Qed.

Lemma hd_error_In {X : Type} (l : list X) (x : X) :
  hd_error l = Some x -> In x l.
Proof. destruct l as [|y l]; [discriminate|]. intros [= ->]. left. reflexivity. Qed.

(** The first element [find] returns splits the list. *)
Lemma find_some_split {X : Type} (p : X -> bool) (l : list X) (x : X) :
  List.find p l = Some x ->
  exists l1 l2, l = l1 ++ x :: l2 /\ p x = true /\
                (forall y, In y l1 -> p y = false).
Proof.
  induction l as [|y l IH]; [discriminate|].
  simpl. destruct (p y) eqn:Hy.
  - intros [= ->]. exists [], l. repeat split; [exact Hy|intros ? []].
  - intros Hx. destruct (IH Hx) as (l1 & l2 & -> & Hpx & Hl1).
    exists (y :: l1), l2. repeat split; [exact Hpx|].
    intros z [<- | Hz]; [exact Hy|apply Hl1, Hz].
Qed.

(** ** URLs of the articles *)

Section Urls.
Context {ext : Externals}.

Lemma url_ok_nil : url_ok [].
Proof. left. reflexivity. Qed.

Lemma best_link_in_http (e : node) (u : pystr) :
  _best_link_in e = Some u -> startswith u (py "http") = true.
Proof.
  unfold _best_link_in. destruct e as [s|name attrs cs]; [discriminate|].
  set (anchors := List.map fst _).
  assert (Hinv : forall v, fst (fold_left best_link_step anchors (None, 0)) = Some v ->
                           startswith v (py "http") = true).
  { apply (fold_left_invariant
             (fun st => forall v, fst st = Some v -> startswith v (py "http") = true)).
    - intros v [=].
    - intros [best_url best_score] a _ Hst v. unfold best_link_step.
      destruct (startswith (strip (href a)) (py "http")) eqn:Hhttp;
        cbn [negb]; [|apply Hst].
      destruct (best_score <? _)%nat; [|apply Hst].
      cbn [fst]. intros [= <-]. exact Hhttp. }
  apply Hinv.
Qed.

Lemma best_link_in_url_ok (e : node) : url_ok (or_empty (_best_link_in e)).
Proof.
  destruct (_best_link_in e) as [u|] eqn:Hb; [|apply url_ok_nil].
  right. exact (best_link_in_http e u Hb).
Qed.

Lemma finalise_url (b : Bucket) : url (_finalise b) = b_url b.
Proof. reflexivity. Qed.

Lemma sections_step_urls_ok st e :
  sections_urls_ok st -> sections_urls_ok (sections_step st e).
Proof.
  destruct st as [articles current]. intros [Harts Hcur]. cbn [fst snd] in *.
  unfold sections_step.
  destruct e as [s|name attrs cs].
  - destruct current as [cur|]; split; cbn [fst snd]; auto.
    intros ? [= <-]. cbn [b_url]. auto.
  - destruct (is_heading name).
    + split; cbn [fst snd].
      * destruct current as [cur|]; [|exact Harts].
        apply Forall_app. split; [exact Harts|].
        constructor; [|constructor]. rewrite finalise_url. auto.
      * intros ? [= <-]. cbn [b_url].
        exact (best_link_in_url_ok (Tag name attrs cs)).
    + destruct current as [cur|]; split; cbn [fst snd]; auto.
      intros ? [= <-]. cbn [b_url].
      destruct (nonempty (b_url cur)); [auto|].
      exact (best_link_in_url_ok (Tag name attrs cs)).
Qed.

Lemma extract_by_sections_url_ok (soup : node) (a : Article) :
  In a (_extract_by_sections soup) -> url_ok (url a).
Proof.
  unfold _extract_by_sections.
  pose proof (fold_left_invariant sections_urls_ok sections_step
                (children (default soup (find (py "body") soup))) ([], None))
    as Hinv.
  destruct (fold_left _ _ _) as [articles current].
  destruct Hinv as [Harts Hcur].
  { split; [constructor|intros ? [=]]. }
  { intros st e _. apply sections_step_urls_ok. }
  cbn [fst snd] in *.
  intros Hin. apply filter_In in Hin. destruct Hin as [Hin _].
  rewrite List.Forall_forall in Harts.
  destruct current as [cur|]; [|apply Harts, Hin].
  apply in_app_or in Hin. destruct Hin as [Hin | [<- | []]]; [apply Harts, Hin|].
  rewrite finalise_url. auto.
Qed.

Lemma links_step_url_ok st e :
  Forall (fun a => url_ok (url a)) (fst st) ->
  Forall (fun a => url_ok (url a)) (fst (links_step st e)).
Proof.
  destruct st as [articles seen]. cbn [fst]. intros Harts. unfold links_step.
  destruct (startswith (strip (href (fst e))) (py "http")) eqn:Hhttp;
    cbn [negb]; [|exact Harts].
  destruct (_is_noise_url _ _); [exact Harts|].
  destruct (bool_decide _); [exact Harts|].
  destruct (_ || _); [exact Harts|].
  cbn [fst]. apply Forall_app. split; [exact Harts|].
  constructor; [|constructor]. cbn [url]. right. exact Hhttp.
Qed.

Lemma extract_by_links_url_ok (soup : node) (a : Article) :
  In a (_extract_by_links soup) -> url_ok (url a).
Proof.
  unfold _extract_by_links. intros Hin.
  pose proof (fold_left_invariant
                (fun st => Forall (fun a => url_ok (url a)) (fst st))
                links_step (find_all_a_href_of [] soup) ([], ∅)) as Hinv.
  assert (Hall : Forall (fun a => url_ok (url a))
                   (fst (fold_left links_step (find_all_a_href_of [] soup) ([], ∅)))).
  { apply Hinv; [constructor|]. intros st e _. apply links_step_url_ok. }
  rewrite List.Forall_forall in Hall. apply Hall, Hin.
Qed.

Lemma extract_fallback_url (soup : node) (a : Article) :
  In a (_extract_fallback soup) -> url a = [].
Proof. intros [<- | []]. reflexivity. Qed.

Lemma run_strategies_url_ok (soup : node) (a : Article) :
  In a (run_strategies soup) -> url_ok (url a).
Proof.
  unfold run_strategies.
  destruct (_extract_by_sections soup) as [|s1 ss] eqn:Hs.
  - destruct (_extract_by_links soup) as [|l1 ls] eqn:Hl.
    + intros Hin. left. exact (extract_fallback_url soup a Hin).
    + rewrite <- Hl. apply extract_by_links_url_ok.
  - rewrite <- Hs. apply extract_by_sections_url_ok.
Qed.

(** C9. The [url] of every article [extract_from_email] returns is the
    empty string or starts with [http]. *)
Theorem returned_urls_empty_or_http
        (html name email stamp_ : pystr) (a : Article) :
  In a (extract_from_email html name email stamp_) ->
  url a = [] \/ startswith (url a) (py "http") = true.
Proof.
  unfold extract_from_email. destruct (negb _); [intros []|].
  rewrite stamp_and_filter_In. intros (a0 & Hin & -> & _).
  cbn [stamp url]. exact (run_strategies_url_ok _ a0 Hin).
Qed.

End Urls.

(** ** The link-based scan *)

Lemma seen_add_other (u v : pystr) (seen : gset pystr) :
  v <> u -> u ∉ seen -> u ∉ {[v]} ∪ seen.
Proof.
  intros Hne Hu. rewrite not_elem_of_union, not_elem_of_singleton.
  split; [congruence|exact Hu].
Qed.

Lemma seen_add_keeps (u v : pystr) (seen : gset pystr) :
  u ∈ seen -> u ∈ {[v]} ∪ seen.
Proof. intros Hu. apply elem_of_union. right. exact Hu. Qed.

Lemma seen_add_new (v : pystr) (seen : gset pystr) : v ∈ {[v]} ∪ seen.
Proof. apply elem_of_union. left. apply elem_of_singleton. reflexivity. Qed.

Section Links.
Context {ext : Externals}.

Lemma links_step_unseen u st e :
  is_occurrence u e = false -> url_unseen u st ->
  url_unseen u (links_step st e).
Proof.
  destruct st as [articles seen]. unfold url_unseen, is_occurrence, links_step.
  cbn [fst snd]. intros Hocc [Harts Hu].
  destruct (startswith (strip (href (fst e))) (py "http")) eqn:Hhttp;
    cbn [negb]; [|auto].
  destruct (_is_noise_url _ _) eqn:Hnoise; [auto|].
  destruct (bool_decide (strip (href (fst e)) ∈ seen)); [auto|].
  rewrite andb_true_r in Hocc. cbn [negb] in Hocc. rewrite andb_true_r in Hocc.
  assert (Hne : strip (href (fst e)) <> u).
  { intros Heq. apply str_eqb_eq in Heq. congruence. }
  destruct (_ || _); cbn [fst snd];
    (split; [|apply seen_add_other; [exact Hne|exact Hu]]).
  - intros a Ha. apply seen_add_keeps, Harts, Ha.
  - intros a Ha. apply in_app_or in Ha. destruct Ha as [Ha | [<- | []]].
    + apply seen_add_keeps, Harts, Ha.
    + cbn [url]. apply seen_add_new.
Qed.

Lemma links_step_blocks u st e :
  is_occurrence u e = true ->
  length (get_text [] true (fst e)) < 10 ->
  url_unseen u st -> url_blocked u (links_step st e).
Proof.
  destruct st as [articles seen]. unfold url_unseen, url_blocked, is_occurrence,
    links_step.
  cbn [fst snd]. intros Hocc Hshort [Harts Hu].
  apply andb_true_iff in Hocc. destruct Hocc as [Hocc Hnoise].
  apply andb_true_iff in Hocc. destruct Hocc as [Heq Hhttp].
  apply str_eqb_eq in Heq. apply negb_true_iff in Hnoise.
  rewrite Hhttp, Hnoise. cbn [negb]. rewrite Heq.
  rewrite bool_decide_eq_false_2 by exact Hu.
  replace (length (get_text [] true (fst e)) <? 10)%nat with true
    by (symmetry; apply Nat.ltb_lt; exact Hshort).
  rewrite orb_true_r. cbn [fst snd]. split; [|apply seen_add_new].
  intros a Ha Hurl. specialize (Harts a Ha). congruence.
Qed.

Lemma links_step_blocked u st e :
  url_blocked u st -> url_blocked u (links_step st e).
Proof.
  destruct st as [articles seen]. unfold url_blocked, links_step.
  cbn [fst snd]. intros [Harts Hu].
  destruct (startswith (strip (href (fst e))) (py "http")); cbn [negb]; [|auto].
  destruct (_is_noise_url _ _); [auto|].
  destruct (bool_decide (strip (href (fst e)) ∈ seen)) eqn:Hseen; [auto|].
  apply bool_decide_eq_false in Hseen.
  assert (Hne : strip (href (fst e)) <> u) by congruence.
  destruct (_ || _); cbn [fst snd];
    (split; [|apply seen_add_keeps, Hu]); [exact Harts|].
  intros a Ha. apply in_app_or in Ha. destruct Ha as [Ha | [<- | []]].
  - apply Harts, Ha.
  - cbn [url]. exact Hne.
Qed.

Lemma extract_by_links_blocked (soup : node) (u : pystr) (a_tag : element) :
  first_occurrence u soup = Some a_tag ->
  length (get_text [] true (fst a_tag)) < 10 ->
  forall a, In a (_extract_by_links soup) -> url a <> u.
Proof.
  unfold first_occurrence, _extract_by_links. intros Hfirst Hshort.
  destruct (find_some_split _ _ _ Hfirst) as (l1 & l2 & -> & Hocc & Hl1).
  rewrite fold_left_app. cbn [fold_left].
  apply (fold_left_invariant (url_blocked u)).
  - apply links_step_blocks; [exact Hocc|exact Hshort|].
    apply (fold_left_invariant (url_unseen u)).
    + split; [intros ? []|apply not_elem_of_empty].
    + intros st e He. apply links_step_unseen, Hl1, He.
  - intros st e _. apply links_step_blocked.
Qed.

(** C10. In link-based extraction a URL is recorded as seen before the
    length of the anchor text is tested.  When the first anchor that
    carries the URL [u] and passes the noise test has an anchor text of
    fewer than 10 characters, no article of [_extract_by_links] has the
    URL [u], whatever anchors follow; and no article of a call of
    [extract_from_email] in which section-based extraction yields nothing
    has it either. *)
Theorem short_first_anchor_blocks_url
        (soup : node) (u : pystr) (a_tag : element) :
  first_occurrence u soup = Some a_tag ->
  length (get_text [] true (fst a_tag)) < 10 ->
  (forall a, In a (_extract_by_links soup) -> url a <> u) /\
  (forall html name email stamp_ a,
      BeautifulSoup html = soup -> _extract_by_sections soup = [] ->
      In a (extract_from_email html name email stamp_) -> url a <> u).
Proof.
  intros Hfirst Hshort.
  pose proof (extract_by_links_blocked soup u a_tag Hfirst Hshort) as Hlinks.
  split; [exact Hlinks|].
  intros html name email stamp_ a Hsoup Hsec.
  unfold extract_from_email. destruct (negb _); [intros []|].
  rewrite stamp_and_filter_In, Hsoup. intros (a0 & Hin & -> & _).
  cbn [stamp url]. unfold run_strategies in Hin. rewrite Hsec in Hin.
  destruct (_extract_by_links soup) as [|l1 ls] eqn:Hl.
  - apply extract_fallback_url in Hin. rewrite Hin. intros <-.
    unfold first_occurrence in Hfirst. apply find_some in Hfirst.
    destruct Hfirst as [_ Hocc]. unfold is_occurrence in Hocc.
    apply andb_true_iff in Hocc. destruct Hocc as [Hocc _].
    apply andb_true_iff in Hocc. destruct Hocc as [Heq Hhttp].
    apply str_eqb_eq in Heq. rewrite Heq in Hhttp. discriminate.
  - apply Hlinks, Hin.
Qed.

End Links.

(** ** The two-section document *)

Section OnSections.
#[local] Existing Instance mail_sections.


(** The first article the two-section document gives. *)
Lemma head_of_sections_output :
  hd_error (extract_from_email html_sections (py "Tech Daily")
              (py "digest@techdaily.com") (py "2026-01-05")) =
  Some (stamp (py "Tech Daily") (py "digest@techdaily.com") (py "2026-01-05")
          false
          (_finalise {| b_title := py "Big News Story";
                        b_url := py "https://example.com/story1";
                        b_raw_text := concat (repeat (py "take ") 120)
                                      ++ SPACE |})).
Proof. vm_compute. reflexivity. Qed.

Lemma first_article_of_sections :
  In (stamp (py "Tech Daily") (py "digest@techdaily.com") (py "2026-01-05")
        false
        (_finalise {| b_title := py "Big News Story";
                      b_url := py "https://example.com/story1";
                      b_raw_text := concat (repeat (py "take ") 120)
                                    ++ SPACE |}))
     (extract_from_email html_sections (py "Tech Daily")
        (py "digest@techdaily.com") (py "2026-01-05")).
Proof. exact (hd_error_In _ _ head_of_sections_output). Qed.

(** C2, witness: the first article of the two-section document, of 120
    words and type ['link']. *)
Lemma returned_articles_long_enough_and_typed_witness :
  exists a,
    In a (extract_from_email html_sections (py "Tech Daily")
            (py "digest@techdaily.com") (py "2026-01-05")) /\
    word_count a = 120 /\ article_type a = Some (py "link") /\
    MIN_WORD_COUNT <= word_count a /\
    (article_type a = Some (py "essay") \/ article_type a = Some (py "link")).
Proof.
  eexists. split; [exact first_article_of_sections|].
  split; [vm_compute; reflexivity|]. split; [vm_compute; reflexivity|].
  exact (returned_articles_long_enough_and_typed _ _ _ _ _
           first_article_of_sections).
Defined.

(** C9, witness: the same article, whose URL starts with [http]. *)
Lemma returned_urls_empty_or_http_witness :
  exists a,
    In a (extract_from_email html_sections (py "Tech Daily")
            (py "digest@techdaily.com") (py "2026-01-05")) /\
    url a = py "https://example.com/story1" /\
    (url a = [] \/ startswith (url a) (py "http") = true).
Proof.
  eexists. split; [exact first_article_of_sections|].
  split; [vm_compute; reflexivity|].
  exact (returned_urls_empty_or_http _ _ _ _ _ first_article_of_sections).
Defined.

End OnSections.

(** ** A short anchor before a long one *)

Section OnShortFirst.
#[local] Existing Instance mail_short_first.

(** C10, witness: the first anchor of the URL reads [Read it], the
    second [Markets rallied today on earnings]; no article carries the URL. *)
Lemma short_first_anchor_blocks_url_witness :
  exists a_tag,
    first_occurrence (py "https://example.com/news/2026/markets-report")
      doc_short_first = Some a_tag /\
    get_text [] true (fst a_tag) = py "Read it" /\
    length (get_text [] true (fst a_tag)) < 10 /\
    (forall a, In a (_extract_by_links doc_short_first) ->
               url a <> py "https://example.com/news/2026/markets-report") /\
    (forall a, In a (extract_from_email html_short_first (py "Tech Daily")
                       (py "digest@techdaily.com") (py "2026-01-05")) ->
               url a <> py "https://example.com/news/2026/markets-report").
Proof.
  assert (Hfirst : exists a_tag,
             first_occurrence (py "https://example.com/news/2026/markets-report")
               doc_short_first = Some a_tag /\
             get_text [] true (fst a_tag) = py "Read it")
    by (vm_compute; eexists; split; reflexivity).
  destruct Hfirst as (a_tag & Hfirst & Htext).
  assert (Hshort : length (get_text [] true (fst a_tag)) < 10)
    by (rewrite Htext; vm_compute; lia).
  exists a_tag. split; [exact Hfirst|]. split; [exact Htext|].
  split; [exact Hshort|].
  destruct (short_first_anchor_blocks_url doc_short_first
              (py "https://example.com/news/2026/markets-report") a_tag
              Hfirst Hshort) as [Hlinks Hcall].
  split; [exact Hlinks|].
  intros a. apply Hcall; reflexivity.
Defined.

End OnShortFirst.

(** ** Blurbs beyond the limit *)

(** C4. The blurb is not always within 600 characters: the slice of 600
    characters is cut at its last space and the two-character marker is
    appended after the cut.  For a text whose 600th character is a space the
    blurb has 601 characters, in [_extract_blurb] and in [_finalise] alike;
    for a text of one word of 601 characters nothing is cut and the blurb
    has 602. *)
Theorem blurb_exceeds_max_blurb_chars :
  length content_space_at_limit = 604 /\
  length (_extract_blurb (ext := strings_only) content_space_at_limit []) = 601 /\
  length (blurb (_finalise (ext := strings_only)
                   {| b_title := py "Deep Dive"; b_url := [];
                      b_raw_text := content_space_at_limit |})) = 601 /\
  _extract_blurb (ext := strings_only) content_one_long_word [] =
  take 600 content_one_long_word ++ ELLIPSIS_MARKER /\
  length (_extract_blurb (ext := strings_only) content_one_long_word []) = 602 /\
  MAX_BLURB_CHARS = 600.
Proof. repeat apply conj; vm_compute; reflexivity. Qed.

(** ** The title of the fallback article *)

Section OnTwoLines.
#[local] Existing Instance mail_two_lines.

(** C5. The title of the fallback article is not the first line of
    suitable length.  The visible text of the two-line paragraph starts
    with the line [Weekly market notes], of 19 characters; the fallback
    strategy replaces the line feed by a space before it splits the text
    into lines, finds one line of more than 120 characters, and titles the
    article [Newsletter]. *)
Theorem fallback_title_ignores_lines :
  _extract_by_sections doc_two_lines = [] /\
  _extract_by_links doc_two_lines = [] /\
  get_text SPACE true doc_two_lines = two_lines /\
  first_title_line (split_on 10%N (get_text SPACE true doc_two_lines)) =
  Some (py "Weekly market notes") /\
  List.map title (_extract_fallback doc_two_lines) = [py "Newsletter"] /\
  List.map (fun a => (title a, word_count a))
    (extract_from_email html_two_lines (py "Market Notes")
       (py "notes@example.com") (py "2026-01-05")) =
  [(py "Newsletter", 123)].
Proof. repeat apply conj; vm_compute; reflexivity. Qed.

End OnTwoLines.

(** * Further properties *)

(** ** Where articles come from *)

Section Origins.
Context {ext : Externals}.

Lemma extract_by_sections_from_bucket (soup : node) (a : Article) :
  In a (_extract_by_sections soup) -> from_bucket a /\ 0 < word_count a.
Proof.
  unfold _extract_by_sections.
  pose proof (fold_left_invariant
                (fun st : list Article * option Bucket => Forall from_bucket (fst st))
                sections_step
                (children (default soup (find (py "body") soup))) ([], None))
    as Hinv.
  destruct (fold_left _ _ _) as [articles current]. cbn [fst] in Hinv.
  assert (Harts : Forall from_bucket articles).
  { apply Hinv; [constructor|]. clear. intros [articles current] e _ Harts.
    cbn [fst] in *. unfold sections_step.
    destruct e as [s|name attrs cs].
    - destruct current; exact Harts.
    - destruct (is_heading name); [|destruct current; exact Harts].
      destruct current as [cur|]; cbn [fst]; [|exact Harts].
      apply Forall_app. split; [exact Harts|].
      constructor; [exists cur; reflexivity|constructor]. }
  intros Hin. apply filter_In in Hin. destruct Hin as [Hin Hwc].
  apply Nat.ltb_lt in Hwc. split; [|exact Hwc].
  rewrite List.Forall_forall in Harts.
  destruct current as [cur|]; [|apply Harts, Hin].
  apply in_app_or in Hin. destruct Hin as [Hin | [<- | []]]; [apply Harts, Hin|].
  exists cur. reflexivity.
Qed.

Lemma links_step_from_anchor st e :
  Forall from_anchor (fst st) -> Forall from_anchor (fst (links_step st e)).
Proof.
  destruct st as [articles seen]. cbn [fst]. intros Harts. unfold links_step.
  destruct (startswith (strip (href (fst e))) (py "http")) eqn:Hhttp;
    cbn [negb]; [|exact Harts].
  destruct (_is_noise_url _ _) eqn:Hnoise; [exact Harts|].
  destruct (bool_decide _); [exact Harts|].
  destruct (negb (nonempty (get_text [] true (fst e)))
            || (length (get_text [] true (fst e)) <? 10)%nat) eqn:Hshort;
    [exact Harts|].
  cbn [fst]. apply Forall_app. split; [exact Harts|].
  constructor; [|constructor].
  exists (get_text [] true (fst e)), (strip (href (fst e))),
    (get_text SPACE true (walk_up 5 (fst e) (snd e))).
  apply orb_false_iff in Hshort. destruct Hshort as [_ Hlen].
  apply Nat.ltb_ge in Hlen. repeat apply conj; auto.
Qed.

Lemma extract_by_links_from_anchor (soup : node) (a : Article) :
  In a (_extract_by_links soup) -> from_anchor a.
Proof.
  unfold _extract_by_links. intros Hin.
  assert (Hall : Forall from_anchor
                   (fst (fold_left links_step (find_all_a_href_of [] soup) ([], ∅)))).
  { apply (fold_left_invariant
             (fun st : list Article * gset pystr => Forall from_anchor (fst st)));
      [constructor|].
    intros st e _. apply links_step_from_anchor. }
  rewrite List.Forall_forall in Hall. apply Hall, Hin.
Qed.

Lemma run_strategies_origin (soup : node) (a : Article) :
  In a (run_strategies soup) ->
  from_bucket a \/ from_anchor a \/ from_fallback soup a.
Proof.
  unfold run_strategies.
  destruct (_extract_by_sections soup) as [|s1 ss] eqn:Hs.
  - destruct (_extract_by_links soup) as [|l1 ls] eqn:Hl.
    + intros Hin. right. right. exact Hin.
    + rewrite <- Hl. intros Hin. right. left.
      exact (extract_by_links_from_anchor soup a Hin).
  - rewrite <- Hs. intros Hin. left.
    exact (proj1 (extract_by_sections_from_bucket soup a Hin)).
Qed.

(** Every returned article is a stamped article of one of the strategies. *)
Lemma returned_article_origin (html name email stamp_ : pystr) (a : Article) :
  In a (extract_from_email html name email stamp_) ->
  exists a0,
    a = stamp name email stamp_ (_is_essay_newsletter name) a0 /\
    MIN_WORD_COUNT <= word_count a0 /\
    In a0 (run_strategies (BeautifulSoup html)) /\
    (from_bucket a0 \/ from_anchor a0 \/ from_fallback (BeautifulSoup html) a0).
Proof.
  unfold extract_from_email. destruct (negb _); [intros []|].
  rewrite stamp_and_filter_In. intros (a0 & Hin & -> & Hwc).
  exists a0. repeat apply conj; auto. apply run_strategies_origin, Hin.
Qed.

End Origins.

(** ** Length of the blurb *)

Lemma after_first_length (sep : N) (s r : pystr) :
  after_first sep s = Some r -> length r < length s.
Proof.
  revert r. induction s as [|c s IH]; intros r; [discriminate|].
  cbn [after_first length]. destruct (c =? sep)%N.
  - intros [= ->]. lia.
  - intros Hr. specialize (IH r Hr). lia.
Qed.

Lemma rsplit1_head_length (sep : N) (s : pystr) :
  length (rsplit1_head sep s) <= length s.
Proof.
  unfold rsplit1_head. destruct (after_first sep (rev s)) as [r|] eqn:Hr; [|lia].
  apply after_first_length in Hr. rewrite length_rev in *. lia.
Qed.

(** The trimming step both [_extract_blurb] and [_finalise] end with. *)
Lemma trimmed_length (blurb : pystr) :
  length (if (MAX_BLURB_CHARS <? length blurb)%nat
          then rsplit1_head 32%N (take MAX_BLURB_CHARS blurb) ++ ELLIPSIS_MARKER
          else blurb) <= MAX_BLURB_CHARS + 2.
Proof.
  destruct (MAX_BLURB_CHARS <? length blurb)%nat eqn:Hlen.
  - rewrite length_app.
    pose proof (rsplit1_head_length 32%N (take MAX_BLURB_CHARS blurb)) as Hr.
    rewrite length_take in Hr. cbn [ELLIPSIS_MARKER length]. lia.
  - apply Nat.ltb_ge in Hlen. lia.
Qed.

Section BlurbLength.
Context {ext : Externals}.

Lemma extract_blurb_length (content title : pystr) :
  length (_extract_blurb content title) <= MAX_BLURB_CHARS + 2.
Proof. unfold _extract_blurb. cbv zeta. apply trimmed_length. Qed.

Lemma finalise_blurb_length (bucket : Bucket) :
  length (blurb (_finalise bucket)) <= MAX_BLURB_CHARS + 2.
Proof. unfold _finalise. cbv zeta. cbn [blurb]. apply trimmed_length. Qed.

(** X1. A blurb is never longer than [MAX_BLURB_CHARS + 2] = 602
    characters: not the result of [_extract_blurb], not the blurb of a
    finalised bucket, and so not the blurb of any returned article. *)
Theorem blurb_at_most_two_over_limit :
  (forall content title : pystr,
      length (_extract_blurb content title) <= MAX_BLURB_CHARS + 2) /\
  (forall bucket : Bucket,
      length (blurb (_finalise bucket)) <= MAX_BLURB_CHARS + 2) /\
  (forall (html name email stamp_ : pystr) (a : Article),
      In a (extract_from_email html name email stamp_) ->
      length (blurb a) <= MAX_BLURB_CHARS + 2).
Proof.
  split; [exact extract_blurb_length|]. split; [exact finalise_blurb_length|].
  intros html name email stamp_ a Hin.
  destruct (returned_article_origin _ _ _ _ _ Hin) as (a0 & -> & _ & _ & Horigin).
  cbn [stamp blurb].
  destruct Horigin as [(b & ->) | [(t & u & c & -> & _) | Hfb]].
  - apply finalise_blurb_length.
  - cbn [link_article blurb]. apply extract_blurb_length.
  - destruct Hfb as [<- | []]. cbn [blurb length]. lia.
Qed.

End BlurbLength.

(** ** Fields of the returned articles *)

Section Fields.
Context {ext : Externals}.

Lemma strategy_fields_consistent (soup : node) (a0 : Article) :
  from_bucket a0 \/ from_anchor a0 \/ from_fallback soup a0 ->
  word_count a0 = length (split_ws (content a0)) /\
  content_snippet a0 = take 500 (content a0) /\
  author a0 = None /\ publish_date a0 = None.
Proof.
  intros [(b & ->) | [(t & u & c & -> & _) | [<- | []]]]; repeat apply conj;
    reflexivity.
Qed.

(** X2. In every returned article the derived keys agree with the
    content: [word_count] is the number of whitespace-separated words of
    [content] (so the content has at least [MIN_WORD_COUNT] words),
    [content_snippet] is its first 500 characters and [paywall_detected] is
    the paywall test of it; the three metadata keys carry the arguments of
    the call, and [author] and [publish_date] are [None]. *)
Theorem returned_fields_agree_with_content
        (html name email stamp_ : pystr) (a : Article) :
  In a (extract_from_email html name email stamp_) ->
  word_count a = length (split_ws (content a)) /\
  MIN_WORD_COUNT <= length (split_ws (content a)) /\
  content_snippet a = take 500 (content a) /\
  paywall_detected a = Some (_detect_paywall (content a)) /\
  newsletter_name a = Some name /\
  newsletter_email a = Some email /\
  received_timestamp a = Some stamp_ /\
  author a = None /\ publish_date a = None.
Proof.
  intros Hin.
  destruct (returned_article_origin _ _ _ _ _ Hin) as (a0 & -> & Hwc & _ & Horigin).
  destruct (strategy_fields_consistent _ _ Horigin) as (Hw & Hs & Ha & Hp).
  cbn [stamp word_count content content_snippet paywall_detected newsletter_name
         newsletter_email received_timestamp author publish_date].
  rewrite <- Hw. repeat apply conj; auto.
Qed.

Lemma essay_is_not_link : py "essay" <> py "link".
Proof. vm_compute. discriminate. Qed.

Lemma classify_forced (a : Article) (email : pystr) :
  _classify a email true = py "essay".
Proof. reflexivity. Qed.

Lemma classify_link_url (a : Article) (email : pystr) (force : bool) :
  _classify a email force = py "link" -> force = false /\ url a <> [].
Proof.
  unfold _classify. destruct force.
  - intros Heq. exfalso. exact (essay_is_not_link Heq).
  - intros Hl. split; [reflexivity|]. intros Hu. rewrite Hu in Hl.
    exact (essay_is_not_link Hl).
Qed.

(** X3. The force tag: when the newsletter name matches
    [config.ESSAY_NEWSLETTERS], every returned article is an ['essay'],
    whatever its URL. *)
Theorem essay_newsletter_articles_are_essays
        (html name email stamp_ : pystr) (a : Article) :
  _is_essay_newsletter name = true ->
  In a (extract_from_email html name email stamp_) ->
  article_type a = Some (py "essay").
Proof.
  intros Hforce Hin.
  destruct (returned_article_origin _ _ _ _ _ Hin) as (a0 & -> & _).
  cbn [stamp article_type]. rewrite Hforce. reflexivity.
Qed.

(** X4. Type and URL of a returned article go together: an article
    without URL is an ['essay'], and an article of type ['link'] has a URL
    that starts with [http] and comes from a newsletter outside the essay
    list. *)
Theorem returned_links_have_http_urls
        (html name email stamp_ : pystr) (a : Article) :
  In a (extract_from_email html name email stamp_) ->
  (url a = [] -> article_type a = Some (py "essay")) /\
  (article_type a = Some (py "link") ->
   startswith (url a) (py "http") = true /\ _is_essay_newsletter name = false).
Proof.
  intros Hin.
  destruct (returned_article_origin _ _ _ _ _ Hin) as (a0 & -> & _ & Hrun & _).
  cbn [stamp article_type url]. split.
  - intros Hu. unfold _classify. rewrite Hu.
    destruct (_is_essay_newsletter name); reflexivity.
  - intros [= Hl]. apply classify_link_url in Hl. destruct Hl as [Hforce Hu].
    split; [|exact Hforce].
    destruct (run_strategies_url_ok _ _ Hrun) as [Hnil | Hhttp];
      [contradiction|exact Hhttp].
Qed.

End Fields.

(** ** Articles of the link-based scan *)

Section LinkArticles.
Context {ext : Externals}.

(** X5. Every article of [_extract_by_links] has the anchor text as
    title, of at least 10 characters; its URL starts with [http] and is not
    noise under that title; its blurb is [_extract_blurb] of its content and
    title. *)
Theorem link_articles_have_real_titles (soup : node) (a : Article) :
  In a (_extract_by_links soup) ->
  10 <= length (title a) /\
  startswith (url a) (py "http") = true /\
  _is_noise_url (url a) (title a) = false /\
  blurb a = _extract_blurb (content a) (title a).
Proof.
  intros Hin.
  destruct (extract_by_links_from_anchor soup a Hin)
    as (t & u & c & -> & Hlen & Hhttp & Hnoise).
  cbn [link_article title url content blurb]. auto.
Qed.

Lemma links_step_nodup st e :
  (forall a, In a (fst st) -> url a ∈ snd st) /\ NoDup (List.map url (fst st)) ->
  (forall a, In a (fst (links_step st e)) -> url a ∈ snd (links_step st e)) /\
  NoDup (List.map url (fst (links_step st e))).
Proof.
  destruct st as [articles seen]. cbn [fst snd]. intros [Hseen Hnd].
  unfold links_step.
  destruct (startswith (strip (href (fst e))) (py "http")); cbn [negb]; [|auto].
  destruct (_is_noise_url _ _); [auto|].
  destruct (bool_decide (strip (href (fst e)) ∈ seen)) eqn:Hin; [auto|].
  apply bool_decide_eq_false in Hin.
  destruct (_ || _); cbn [fst snd].
  - split; [|exact Hnd]. intros a Ha. apply seen_add_keeps, Hseen, Ha.
  - split.
    + intros a Ha. apply in_app_or in Ha. destruct Ha as [Ha | [<- | []]].
      * apply seen_add_keeps, Hseen, Ha.
      * cbn [url]. apply seen_add_new.
    + rewrite List.map_app. cbn [List.map url].
      apply NoDup_ListNoDup. apply NoDup_ListNoDup in Hnd.
      apply List.NoDup_app; [exact Hnd|repeat constructor; intros []|].
      intros u Hu [<- | []]. apply in_map_iff in Hu.
      destruct Hu as (a & Hurl & Ha). apply Hin. rewrite <- Hurl.
      apply Hseen, Ha.
Qed.

(** X6. The link-based scan never returns two articles with the same
    URL. *)
Theorem link_articles_have_distinct_urls (soup : node) :
  NoDup (List.map url (_extract_by_links soup)).
Proof.
  unfold _extract_by_links.
  apply (fold_left_invariant
           (fun st : list Article * gset pystr =>
              (forall a, In a (fst st) -> url a ∈ snd st) /\
              NoDup (List.map url (fst st)))).
  - split; [intros ? []|constructor].
  - intros st e _. apply links_step_nodup.
Qed.

End LinkArticles.

(** ** The walk to the content block *)

Lemma last_cons {X : Type} (x d : X) (l : list X) :
  List.last (x :: l) d = List.last l x.
Proof.
  revert x d. induction l as [|y l IH]; intros x d; [reflexivity|].
  change (List.last (x :: y :: l) d) with (List.last (y :: l) d).
  rewrite (IH y d), (IH y x). reflexivity.
Qed.

Section WalkUp.
Context {ext : Externals}.

Lemma walk_up_stops_at_block (turns : nat) (a p : node) (above below : list node) :
  length above < turns -> is_block p = true ->
  Forall (fun q => is_block q = false) above ->
  walk_up turns a (above ++ p :: below) = p.
Proof.
  revert turns a. induction above as [|q above IH]; intros turns a Hlen Hp Habove.
  - destruct turns as [|turns]; [cbn [length] in Hlen; lia|].
    cbn [walk_up app]. rewrite Hp. reflexivity.
  - destruct turns as [|turns]; [cbn [length] in Hlen; lia|].
    apply Forall_cons in Habove. destruct Habove as [Hq Habove].
    cbn [walk_up app]. rewrite Hq. apply IH; [cbn [length] in Hlen; lia|exact Hp|exact Habove].
Qed.

Lemma walk_up_without_block (turns : nat) (a : node) (parents : list node) :
  Forall (fun q => is_block q = false) (take turns parents) ->
  walk_up turns a parents = List.last (take turns parents) a.
Proof.
  revert a parents. induction turns as [|turns IH]; intros a parents Hno.
  - reflexivity.
  - destruct parents as [|p above]; [reflexivity|].
    cbn [take firstn] in Hno. apply Forall_cons in Hno. destruct Hno as [Hp Hno].
    cbn [walk_up]. rewrite Hp. rewrite (IH p above Hno).
    change (take (S turns) (p :: above)) with (p :: take turns above).
    rewrite last_cons. reflexivity.
Qed.

(** X7. The content block of an anchor is its nearest block-level
    parent ([td], [div], [section], [article], [li], [p]) among the first
    five; when none of these five is block-level it is the fifth parent, or
    the last parent there is, or the anchor itself when it has no parent. *)
Theorem content_block_is_nearest_block (a : node) (parents : list node) :
  (forall above p below,
      parents = above ++ p :: below -> length above < 5 ->
      is_block p = true -> Forall (fun q => is_block q = false) above ->
      walk_up 5 a parents = p) /\
  (Forall (fun q => is_block q = false) (take 5 parents) ->
   walk_up 5 a parents = List.last (take 5 parents) a).
Proof.
  split.
  - intros above p below -> Hlen Hp Habove.
    apply walk_up_stops_at_block; assumption.
  - apply walk_up_without_block.
Qed.

End WalkUp.

(** ** Sections and headings *)

Section Headings.
Context {ext : Externals}.

Lemma sections_step_before_heading (e : node) :
  is_heading_tag e = false -> sections_step ([], None) e = ([], None).
Proof.
  destruct e as [s|name attrs cs]; [reflexivity|].
  cbn [is_heading_tag sections_step]. intros ->. reflexivity.
Qed.

Lemma sections_loop_before_heading (pre : list node) :
  Forall (fun e => is_heading_tag e = false) pre ->
  fold_left sections_step pre ([], None) = ([], None).
Proof.
  induction pre as [|e pre IH]; [reflexivity|].
  intros Hpre. apply Forall_cons in Hpre. destruct Hpre as [He Hpre].
  cbn [fold_left]. rewrite (sections_step_before_heading e He). exact (IH Hpre).
Qed.

(** X8. What precedes the first heading among the children of the body
    is discarded: two documents whose bodies differ only by children without
    [h2] or [h3] tag in front of the rest give the same section articles. *)
Theorem content_before_first_heading_is_discarded
        (soup soup' : node) (pre rest : list node) :
  children (body_of soup) = pre ++ rest ->
  children (body_of soup') = rest ->
  Forall (fun e => is_heading_tag e = false) pre ->
  _extract_by_sections soup = _extract_by_sections soup'.
Proof.
  unfold _extract_by_sections, body_of. intros -> -> Hpre.
  rewrite fold_left_app, (sections_loop_before_heading pre Hpre). reflexivity.
Qed.

(** X9. A document whose body has no [h2] or [h3] tag among its direct
    children gives no section article, however many headings lie deeper. *)
Theorem no_top_level_heading_no_sections (soup : node) :
  Forall (fun e => is_heading_tag e = false) (children (body_of soup)) ->
  _extract_by_sections soup = [].
Proof.
  unfold _extract_by_sections, body_of. intros Hno.
  rewrite (sections_loop_before_heading _ Hno). reflexivity.
Qed.

End Headings.

(** ** The best link of an element *)

Section BestLink.
Context {ext : Externals}.

(** The loop of [_best_link_in] read over the candidates. *)
Lemma best_link_fold_candidates (anchors : list node) (st : option pystr * nat) :
  fold_left best_link_step anchors st =
  fold_left
    (fun st c =>
       if (snd st <? candidate_score c)%nat then (Some (fst c), candidate_score c)
       else st)
    (flat_map
       (fun a =>
          let url := strip (href a) in
          if startswith url (py "http") then [(url, get_text [] true a)] else [])
       anchors)
    st.
Proof.
  revert st. induction anchors as [|a anchors IH]; intros st; [reflexivity|].
  cbn [fold_left flat_map]. rewrite IH. destruct st as [bu bs].
  unfold best_link_step at 1.
  destruct (startswith (strip (href a)) (py "http")); cbn [negb app]; [|reflexivity].
  cbn [fold_left]. reflexivity.
Qed.

Lemma best_so_far_step (seen : list (pystr * pystr)) (st : option pystr * nat)
      (c : pystr * pystr) :
  best_so_far seen st ->
  best_so_far (seen ++ [c])
    (if (snd st <? candidate_score c)%nat then (Some (fst c), candidate_score c)
     else st).
Proof.
  destruct st as [bu bs]. unfold best_so_far. cbn [fst snd].
  destruct (bs <? candidate_score c)%nat eqn:Hlt.
  - apply Nat.ltb_lt in Hlt. cbn [fst snd]. intros Hinv.
    exists seen, (snd c), []. destruct c as [u t]. cbn [fst snd].
    repeat apply conj; [reflexivity|reflexivity|lia| |constructor].
    destruct bu as [v|].
    + destruct Hinv as (before & text & after & -> & Hs & Hpos & Hb & Ha).
      apply Forall_app. split; [|constructor].
      * eapply Forall_impl; [exact Hb|]. cbv beta. intros; lia.
      * rewrite Hs. exact Hlt.
      * eapply Forall_impl; [exact Ha|]. cbv beta. intros; lia.
    + destruct Hinv as [-> Hzero].
      eapply Forall_impl; [exact Hzero|]. cbv beta. intros; lia.
  - apply Nat.ltb_ge in Hlt. destruct bu as [v|]; cbn [fst snd].
    + intros (before & text & after & -> & Hs & Hpos & Hb & Ha).
      exists before, text, (after ++ [c]).
      repeat apply conj; auto.
      * rewrite <- app_assoc. reflexivity.
      * apply Forall_app. split; [exact Ha|]. constructor; [exact Hlt|constructor].
    + intros [-> Hzero]. split; [reflexivity|].
      apply Forall_app. split; [exact Hzero|].
      constructor; [lia|constructor].
Qed.

Lemma best_so_far_fold (l seen : list (pystr * pystr)) (st : option pystr * nat) :
  best_so_far seen st ->
  best_so_far (seen ++ l)
    (fold_left
       (fun st c =>
          if (snd st <? candidate_score c)%nat
          then (Some (fst c), candidate_score c) else st) l st).
Proof.
  revert seen st. induction l as [|c l IH]; intros seen st Hinv.
  - rewrite app_nil_r. exact Hinv.
  - cbn [fold_left].
    replace (seen ++ c :: l) with ((seen ++ [c]) ++ l)
      by (rewrite <- app_assoc; reflexivity).
    apply IH, best_so_far_step, Hinv.
Qed.

Lemma positive_score_not_noise (url text : pystr) :
  0 < _score_link url text -> _is_noise_url url text = false.
Proof.
  rewrite score_link_unfold. destruct (_is_noise_url url text); [lia|reflexivity].
Qed.

(** X10. [_best_link_in] returns the first of the highest-scoring
    [http] links below the element: every link before it scores strictly
    less, every link after it at most as much, and its own score is positive,
    so it is not noise.  It returns [None] exactly when every such link
    scores 0. *)
Theorem best_link_is_first_of_highest_score (element : node) :
  match _best_link_in element with
  | Some u =>
      exists before text after,
        link_candidates element = before ++ (u, text) :: after /\
        0 < _score_link u text /\
        _is_noise_url u text = false /\
        Forall (fun c => _score_link (fst c) (snd c) < _score_link u text) before /\
        Forall (fun c => _score_link (fst c) (snd c) <= _score_link u text) after
  | None =>
      Forall (fun c => _score_link (fst c) (snd c) = 0) (link_candidates element)
  end.
Proof.
  unfold _best_link_in, link_candidates.
  destruct element as [s|name attrs cs]; [constructor|].
  rewrite best_link_fold_candidates.
  pose proof (best_so_far_fold
                (flat_map
                   (fun a =>
                      let url := strip (href a) in
                      if startswith url (py "http")
                      then [(url, get_text [] true a)] else [])
                   (List.map fst (find_all_a_href_of [] (Tag name attrs cs))))
                [] (None, 0)) as Hinv.
  cbn [app] in Hinv.
  destruct (fold_left _ _ (None, 0)) as [bu bs].
  unfold best_so_far in Hinv. cbn [fst snd] in *.
  destruct bu as [u|].
  - destruct Hinv as (before & text & after & Heq & Hs & Hpos & Hb & Ha).
    { split; [reflexivity|constructor]. }
    unfold candidate_score in *. cbn [fst snd] in Hs. subst bs.
    exists before, text, after. repeat apply conj; auto.
    apply positive_score_not_noise, Hpos.
  - destruct Hinv as [_ Hzero]; [split; [reflexivity|constructor]|exact Hzero].
Qed.

End BestLink.

(** ** Normalised text *)

Section StripFacts.
Variable p : N -> bool.

Lemma lstrip_by_all (l : pystr) : forallb p l = true -> lstrip_by p l = [].
Proof.
  induction l as [|c l IH]; [reflexivity|]. cbn [forallb lstrip_by].
  destruct (p c); [exact IH|discriminate].
Qed.

Lemma lstrip_by_snoc (l : pystr) (c : N) :
  lstrip_by p (l ++ [c]) =
  if forallb p l then (if p c then [] else [c]) else lstrip_by p l ++ [c].
Proof.
  induction l as [|d l IH]; [reflexivity|].
  cbn [app lstrip_by forallb]. destruct (p d); [exact IH|reflexivity].
Qed.

Lemma forallb_rev (l : pystr) : forallb p (rev l) = forallb p l.
Proof.
  induction l as [|c l IH]; [reflexivity|].
  cbn [rev forallb]. rewrite forallb_app, IH. cbn [forallb].
  destruct (forallb p l), (p c); reflexivity.
Qed.

Lemma rstrip_by_cons (c : N) (s : pystr) :
  rstrip_by p (c :: s) =
  if forallb p (c :: s) then [] else c :: rstrip_by p s.
Proof.
  unfold rstrip_by. cbn [rev forallb]. rewrite lstrip_by_snoc, forallb_rev.
  destruct (forallb p s) eqn:Hall.
  - rewrite lstrip_by_all by (rewrite forallb_rev; exact Hall).
    destruct (p c); reflexivity.
  - rewrite andb_false_r, rev_app_distr. reflexivity.
Qed.

Lemma rstrip_by_nil : rstrip_by p [] = [].
Proof. reflexivity. Qed.

End StripFacts.

Lemma runs_ok_tail (c : N) (s : pystr) : runs_ok (c :: s) = true -> runs_ok s = true.
Proof.
  cbn [runs_ok]. destruct (isspace c); [|auto].
  intros H. apply andb_true_iff in H. tauto.
Qed.

Lemma collapse_from_runs_ok (in_run : bool) (s : pystr) :
  runs_ok (collapse_from in_run s) = true /\
  (in_run = true -> starts_with_word (collapse_from in_run s) = true).
Proof.
  revert in_run. induction s as [|c s IH]; intros in_run; [split; reflexivity|].
  cbn [collapse_from]. destruct (isspace c) eqn:Hc.
  - destruct in_run.
    + apply IH.
    + split; [|discriminate]. destruct (IH true) as [Hok Hhead].
      specialize (Hhead eq_refl).
      change (runs_ok (32%N :: collapse_from true s))
        with (true && match collapse_from true s with
                      | [] => true | d :: _ => negb (isspace d) end
              && runs_ok (collapse_from true s)).
      rewrite Hok. unfold starts_with_word in Hhead.
      destruct (collapse_from true s); [reflexivity|].
      rewrite Hhead. reflexivity.
  - split.
    + cbn [runs_ok]. rewrite Hc. apply IH.
    + intros _. cbn [starts_with_word]. rewrite Hc. reflexivity.
Qed.

Lemma lstrip_runs_ok (s : pystr) :
  runs_ok s = true ->
  runs_ok (lstrip_by isspace s) = true /\
  starts_with_word (lstrip_by isspace s) = true.
Proof.
  induction s as [|c s IH]; [split; reflexivity|].
  intros Hok. cbn [lstrip_by]. destruct (isspace c) eqn:Hc.
  - apply IH. exact (runs_ok_tail c s Hok).
  - split; [exact Hok|]. cbn [starts_with_word]. rewrite Hc. reflexivity.
Qed.

Lemma rstrip_spaced_ok (t : pystr) :
  runs_ok t = true -> spaced_ok (rstrip_by isspace t) = true.
Proof.
  induction t as [|c t IH]; [reflexivity|].
  intros Hok. rewrite rstrip_by_cons.
  destruct (forallb isspace (c :: t)) eqn:Hall; [reflexivity|].
  pose proof (IH (runs_ok_tail c t Hok)) as Ht.
  cbn [spaced_ok]. cbn [runs_ok] in Hok. cbn [forallb] in Hall.
  destruct (isspace c) eqn:Hc; [|exact Ht].
  apply andb_true_iff in Hok. destruct Hok as [Hok _].
  apply andb_true_iff in Hok. destruct Hok as [H32 Hnext].
  rewrite H32, Ht. cbn [andb] in Hall |- *.
  destruct t as [|d t]; [discriminate|].
  rewrite rstrip_by_cons. cbn [forallb].
  apply negb_true_iff in Hnext. rewrite Hnext. cbn [andb]. rewrite Hnext.
  reflexivity.
Qed.

Lemma rstrip_starts_with_word (t : pystr) :
  starts_with_word t = true -> starts_with_word (rstrip_by isspace t) = true.
Proof.
  destruct t as [|c t]; [reflexivity|].
  cbn [starts_with_word]. intros Hc. apply negb_true_iff in Hc.
  rewrite rstrip_by_cons. cbn [forallb]. rewrite Hc. cbn [andb starts_with_word].
  rewrite Hc. reflexivity.
Qed.

(** Collapsing and stripping, as [_finalise] and [_extract_fallback] do
    to their text, leaves words separated by single spaces. *)
Lemma strip_collapse_single_spaced (s : pystr) :
  single_spaced (strip (collapse_ws s)) = true.
Proof.
  unfold strip, strip_by, collapse_ws.
  destruct (collapse_from_runs_ok false s) as [Hok _].
  destruct (lstrip_runs_ok _ Hok) as [Hok' Hhead].
  pose proof (rstrip_spaced_ok _ Hok') as Hs.
  pose proof (rstrip_starts_with_word _ Hhead) as Hh.
  unfold single_spaced. unfold starts_with_word in Hh.
  destruct (rstrip_by isspace (lstrip_by isspace (collapse_from false s)));
    [reflexivity|].
  rewrite Hh, Hs. reflexivity.
Qed.

Lemma spaced_ok_whitespace (s : pystr) (c : N) :
  spaced_ok s = true -> In c s -> isspace c = true -> c = 32%N.
Proof.
  induction s as [|d s IH]; [intros _ []|].
  cbn [spaced_ok]. intros Hok [-> | Hin] Hc.
  - rewrite Hc in Hok. apply andb_true_iff in Hok. destruct Hok as [Hok _].
    apply andb_true_iff in Hok. destruct Hok as [H32 _].
    apply N.eqb_eq in H32. exact H32.
  - apply IH; [|exact Hin|exact Hc].
    destruct (isspace d); [|exact Hok].
    apply andb_true_iff in Hok. tauto.
Qed.

Lemma single_spaced_spaced_ok (s : pystr) :
  single_spaced s = true -> spaced_ok s = true.
Proof.
  destruct s as [|c s]; [reflexivity|]. unfold single_spaced.
  intros H. apply andb_true_iff in H. tauto.
Qed.

Lemma single_spaced_no_line_feed (s : pystr) :
  single_spaced s = true -> List.filter (N.eqb 10%N) s = [].
Proof.
  intros Hs. apply single_spaced_spaced_ok in Hs.
  destruct (List.filter (N.eqb 10%N) s) as [|c l] eqn:Hf; [reflexivity|].
  assert (Hin : In c (List.filter (N.eqb 10%N) s)) by (rewrite Hf; left; reflexivity).
  apply filter_In in Hin. destruct Hin as [Hin Hc].
  apply N.eqb_eq in Hc. subst c.
  pose proof (spaced_ok_whitespace s 10%N Hs Hin eq_refl) as H. discriminate H.
Qed.

Lemma spaced_ok_rstrip (s : pystr) :
  spaced_ok s = true -> rstrip_by isspace s = s.
Proof.
  induction s as [|c s IH]; [reflexivity|].
  cbn [spaced_ok]. intros Hok. rewrite rstrip_by_cons. cbn [forallb].
  destruct (isspace c) eqn:Hc.
  - apply andb_true_iff in Hok. destruct Hok as [Hok Hs].
    apply andb_true_iff in Hok. destruct Hok as [_ Hnext].
    destruct s as [|d s]; [discriminate|].
    apply negb_true_iff in Hnext. cbn [forallb andb]. rewrite Hnext.
    cbn [andb]. rewrite (IH Hs). reflexivity.
  - cbn [andb]. rewrite (IH Hok). reflexivity.
Qed.

(** Stripping a single-spaced string changes nothing. *)
Lemma single_spaced_strip (s : pystr) : single_spaced s = true -> strip s = s.
Proof.
  intros Hs. pose proof (single_spaced_spaced_ok s Hs) as Hok.
  unfold strip, strip_by.
  assert (Hl : lstrip_by isspace s = s).
  { destruct s as [|c s]; [reflexivity|]. unfold single_spaced in Hs.
    apply andb_true_iff in Hs. destruct Hs as [Hc _].
    apply negb_true_iff in Hc. cbn [lstrip_by]. rewrite Hc. reflexivity. }
  rewrite Hl. apply spaced_ok_rstrip, Hok.
Qed.

(** A string of [n] words has at least [2n - 1] characters. *)
Lemma split_ws_from_length (cur s : pystr) :
  2 * length (split_ws_from cur s) <=
  length s + match cur with [] => 1 | _ => 2 end.
Proof.
  revert cur. induction s as [|c s IH]; intros cur.
  - destruct cur; cbn [split_ws_from length]; lia.
  - cbn [split_ws_from]. destruct (isspace c).
    + destruct cur as [|d cur].
      * specialize (IH []). cbn [length] in *. lia.
      * specialize (IH []). cbn [length] in *. lia.
    + specialize (IH (c :: cur)). cbn [length] in *. destruct cur; lia.
Qed.

Lemma split_ws_length (s : pystr) : 2 * length (split_ws s) <= length s + 1.
Proof. exact (split_ws_from_length [] s). Qed.

(** ** Content and title of section and fallback articles *)

Section Normalised.
Context {ext : Externals}.

(** X11. The content of every section article and of the fallback
    article is single-spaced: it holds no whitespace character but the
    space, it neither starts nor ends with one, and no two spaces are
    adjacent. *)
Theorem section_and_fallback_content_single_spaced (soup : node) (a : Article) :
  In a (_extract_by_sections soup) \/ In a (_extract_fallback soup) ->
  single_spaced (content a) = true.
Proof.
  intros [Hin | [<- | []]].
  - destruct (extract_by_sections_from_bucket soup a Hin) as [(b & ->) _].
    cbn [_finalise content]. apply strip_collapse_single_spaced.
  - cbn [content]. apply strip_collapse_single_spaced.
Qed.

Lemma first_title_line_single (text : pystr) :
  single_spaced text = true ->
  first_title_line (split_on 10%N text) =
  if (10 <? length text)%nat && (length text <? 120)%nat then Some text else None.
Proof.
  intros Hs. rewrite (split_on_no_sep _ _ (single_spaced_no_line_feed text Hs)).
  cbn [first_title_line]. rewrite (single_spaced_strip text Hs).
  destruct ((10 <? length text)%nat && (length text <? 120)%nat); reflexivity.
Qed.

Lemma fallback_article_shape (soup : node) :
  exists a,
    _extract_fallback soup = [a] /\
    content a = strip (collapse_ws (get_text SPACE true soup)) /\
    url a = [] /\ blurb a = [] /\
    title a =
    (if (10 <? length (content a))%nat && (length (content a) <? 120)%nat
     then content a else py "Newsletter").
Proof.
  eexists. split; [reflexivity|]. cbn [content url blurb title].
  repeat apply conj; try reflexivity.
  rewrite (first_title_line_single _ (strip_collapse_single_spaced _)).
  destruct ((10 <? _)%nat && (_ <? 120)%nat); reflexivity.
Qed.

(** X12. The fallback strategy always yields exactly one article,
    without URL and without blurb, whose content is the collapsed and
    stripped text of the document.  Its title is that whole content when the
    content has between 11 and 119 characters, and ['Newsletter'] otherwise:
    the loop over lines never sees more than this one line. *)
Theorem fallback_title_is_content_or_placeholder (soup : node) :
  exists a,
    _extract_fallback soup = [a] /\
    content a = strip (collapse_ws (get_text SPACE true soup)) /\
    url a = [] /\ blurb a = [] /\
    title a =
    (if (10 <? length (content a))%nat && (length (content a) <? 120)%nat
     then content a else py "Newsletter").
Proof.
  destruct (fallback_article_shape soup) as (a & Hshape).
  exists a. exact Hshape.
Qed.

(** X13. An article that reaches the caller through the fallback (the
    two other strategies yield nothing) is titled ['Newsletter'], has no URL
    and is an ['essay']: with the [MIN_WORD_COUNT] words the filter asks for,
    its content is too long to serve as title. *)
Theorem returned_fallback_article_is_titled_newsletter
        (html name email stamp_ : pystr) (a : Article) :
  _extract_by_sections (BeautifulSoup html) = [] ->
  _extract_by_links (BeautifulSoup html) = [] ->
  In a (extract_from_email html name email stamp_) ->
  title a = py "Newsletter" /\ url a = [] /\
  article_type a = Some (py "essay").
Proof.
  intros Hsec Hlinks Hin.
  destruct (returned_article_origin _ _ _ _ _ Hin) as (a0 & -> & Hwc & Hrun & _).
  unfold run_strategies in Hrun. rewrite Hsec, Hlinks in Hrun.
  destruct (fallback_article_shape (BeautifulSoup html))
    as (fb & Hfb & _ & Hurl & _ & Htitle).
  rewrite Hfb in Hrun. destruct Hrun as [<- | []].
  cbn [stamp title url article_type]. rewrite Hurl.
  repeat apply conj; [|reflexivity|].
  - rewrite Htitle.
    assert (Hw : word_count fb = length (split_ws (content fb))).
    { injection Hfb as <-. reflexivity. }
    pose proof (split_ws_length (content fb)) as Hlen.
    unfold MIN_WORD_COUNT in Hwc.
    replace (length (content fb) <? 120)%nat with false
      by (symmetry; apply Nat.ltb_ge; lia).
    rewrite andb_false_r. reflexivity.
  - unfold _classify. rewrite Hurl.
    destruct (_is_essay_newsletter name); reflexivity.
Qed.

End Normalised.

(** ** The further properties on the example documents *)

Lemma no_heading_forallb (l : list node) :
  forallb (fun e => negb (is_heading_tag e)) l = true ->
  Forall (fun e => is_heading_tag e = false) l.
Proof.
  induction l as [|e l IH]; [constructor|].
  cbn [forallb]. intros H. apply andb_true_iff in H. destruct H as [He Hl].
  constructor; [apply negb_true_iff, He|apply IH, Hl].
Qed.

Lemma nth_0_In {X : Type} (l : list X) (d : X) (n : nat) :
  length l = S n -> In (List.nth 0 l d) l.
Proof. destruct l as [|x l]; [discriminate|]. intros _. left. reflexivity. Qed.

(** X1, witness: the word of 601 characters reaches the bound, and the
    first article of the two-section document is within it. *)
Lemma blurb_at_most_two_over_limit_witness :
  length (_extract_blurb (ext := strings_only) content_one_long_word []) = 602 /\
  length (_extract_blurb (ext := strings_only) content_one_long_word [])
  <= MAX_BLURB_CHARS + 2 /\
  length (blurb (List.nth 0
                   (extract_from_email (ext := mail_sections) html_sections
                      (py "Tech Daily") (py "digest@techdaily.com")
                      (py "2026-01-05"))
                   (article_with_url []))) <= MAX_BLURB_CHARS + 2.
Proof.
  assert (Hlen : length (extract_from_email (ext := mail_sections) html_sections
                           (py "Tech Daily") (py "digest@techdaily.com")
                           (py "2026-01-05")) = 2) by (vm_compute; reflexivity).
  split; [vm_compute; reflexivity|]. split.
  - exact (proj1 (blurb_at_most_two_over_limit (ext := strings_only))
             content_one_long_word []).
  - exact (proj2 (proj2 (blurb_at_most_two_over_limit (ext := mail_sections)))
             _ _ _ _ _ (nth_0_In _ _ _ Hlen)).
Defined.

Section OnSectionsAgain.
#[local] Existing Instance mail_sections.

(** X2, witness: the first article of the two-section document. *)
Lemma returned_fields_agree_with_content_witness :
  exists a,
    In a (extract_from_email html_sections (py "Tech Daily")
            (py "digest@techdaily.com") (py "2026-01-05")) /\
    word_count a = 120 /\
    word_count a = length (split_ws (content a)) /\
    content_snippet a = take 500 (content a) /\
    newsletter_name a = Some (py "Tech Daily").
Proof.
  eexists. split; [exact first_article_of_sections|].
  split; [vm_compute; reflexivity|].
  pose proof (returned_fields_agree_with_content _ _ _ _ _
                first_article_of_sections) as (Hw & _ & Hs & _ & Hn & _).
  auto.
Defined.

(** X3, witness: the same document sent by [Stratechery]; both articles,
    the one with a URL included, are essays. *)
Lemma essay_newsletter_articles_are_essays_witness :
  _is_essay_newsletter (py "Stratechery") = true /\
  List.map article_type
    (extract_from_email html_sections (py "Stratechery")
       (py "digest@techdaily.com") (py "2026-01-05")) =
  [Some (py "essay"); Some (py "essay")] /\
  article_type
    (List.nth 0 (extract_from_email html_sections (py "Stratechery")
                   (py "digest@techdaily.com") (py "2026-01-05"))
       (article_with_url [])) = Some (py "essay").
Proof.
  assert (Hname : _is_essay_newsletter (py "Stratechery") = true)
    by (vm_compute; reflexivity).
  assert (Hlen : length (extract_from_email html_sections (py "Stratechery")
                           (py "digest@techdaily.com") (py "2026-01-05")) = 2)
    by (vm_compute; reflexivity).
  split; [exact Hname|]. split; [vm_compute; reflexivity|].
  exact (essay_newsletter_articles_are_essays _ _ _ _ _ Hname
           (nth_0_In _ _ _ Hlen)).
Defined.

(** X4, witness: the first article of the two-section document, a
    ['link'] to [https://example.com/story1]. *)
Lemma returned_links_have_http_urls_witness :
  exists a,
    In a (extract_from_email html_sections (py "Tech Daily")
            (py "digest@techdaily.com") (py "2026-01-05")) /\
    article_type a = Some (py "link") /\
    startswith (url a) (py "http") = true /\
    _is_essay_newsletter (py "Tech Daily") = false.
Proof.
  eexists. split; [exact first_article_of_sections|].
  assert (Htype : article_type
                    (stamp (py "Tech Daily") (py "digest@techdaily.com")
                       (py "2026-01-05") false
                       (_finalise
                          {| b_title := py "Big News Story";
                             b_url := py "https://example.com/story1";
                             b_raw_text := concat (repeat (py "take ") 120)
                                           ++ SPACE |})) = Some (py "link"))
    by (vm_compute; reflexivity).
  split; [exact Htype|].
  exact (proj2 (returned_links_have_http_urls _ _ _ _ _
                  first_article_of_sections) Htype).
Defined.

(** X8, witness: the preheader in front of the two sections changes
    nothing. *)
Lemma content_before_first_heading_is_discarded_witness :
  children (body_of doc_preamble) =
  [el "p" [text "View this email in your browser"]; text "Tech Daily"]
    ++ children (body_of doc_sections) /\
  length (_extract_by_sections doc_sections) = 2 /\
  _extract_by_sections doc_preamble = _extract_by_sections doc_sections.
Proof.
  assert (Hc : children (body_of doc_preamble) =
               [el "p" [text "View this email in your browser"]; text "Tech Daily"]
                 ++ children (body_of doc_sections))
    by (vm_compute; reflexivity).
  split; [exact Hc|]. split; [vm_compute; reflexivity|].
  apply (content_before_first_heading_is_discarded doc_preamble doc_sections _ _
           Hc eq_refl).
  apply no_heading_forallb. vm_compute. reflexivity.
Defined.

End OnSectionsAgain.

Section OnNestedHeadingAgain.
#[local] Existing Instance mail_nested_heading.

(** X5, witness: the link-based article of the nested document. *)
Lemma link_articles_have_real_titles_witness :
  List.map title (_extract_by_links doc_nested_heading) =
  [py "Markets rallied today on earnings"] /\
  10 <= length (title (List.nth 0 (_extract_by_links doc_nested_heading)
                         (article_with_url []))) /\
  startswith (url (List.nth 0 (_extract_by_links doc_nested_heading)
                     (article_with_url []))) (py "http") = true.
Proof.
  assert (Hlen : length (_extract_by_links doc_nested_heading) = 1)
    by (vm_compute; reflexivity).
  pose proof (link_articles_have_real_titles doc_nested_heading _
                (nth_0_In _ (article_with_url []) _ Hlen)) as (Ht & Hu & _).
  split; [vm_compute; reflexivity|]. split; [exact Ht|exact Hu].
Defined.

(** X9, witness: the heading of the nested document lies below a [div]. *)
Lemma no_top_level_heading_no_sections_witness :
  has_heading doc_nested_heading = true /\
  _extract_by_sections doc_nested_heading = [].
Proof.
  split; [vm_compute; reflexivity|].
  apply no_top_level_heading_no_sections.
  apply no_heading_forallb. vm_compute. reflexivity.
Defined.

End OnNestedHeadingAgain.

(** X7, witness: below [<div><p><span><b>] the content block of an
    anchor is the [p]. *)
Lemma content_block_is_nearest_block_witness :
  walk_up 5 (anchor "https://example.com/a" "A link") parents_span_p_div =
  el "p" [].
Proof.
  refine (proj1 (content_block_is_nearest_block
                   (anchor "https://example.com/a" "A link") parents_span_p_div)
            [el "b" []; el "span" []] (el "p" []) [el "div" []] eq_refl _ _ _).
  - cbn [length]. lia.
  - vm_compute. reflexivity.
  - repeat constructor.
Defined.

Section OnTwoLinesAgain.
#[local] Existing Instance mail_two_lines.

(** X11, witness: the fallback article of the two-line paragraph; the
    line feed of the document has become a space. *)
Lemma section_and_fallback_content_single_spaced_witness :
  single_spaced two_lines = false /\
  single_spaced
    (content (List.nth 0 (_extract_fallback doc_two_lines) (article_with_url [])))
  = true.
Proof.
  assert (Hlen : length (_extract_fallback doc_two_lines) = 1) by reflexivity.
  split; [vm_compute; reflexivity|].
  exact (section_and_fallback_content_single_spaced doc_two_lines _
           (or_intror (nth_0_In _ (article_with_url []) _ Hlen))).
Defined.

(** X13, witness: the two-line paragraph, returned through the
    fallback. *)
Lemma returned_fallback_article_is_titled_newsletter_witness :
  _extract_by_sections (BeautifulSoup html_two_lines) = [] /\
  _extract_by_links (BeautifulSoup html_two_lines) = [] /\
  length (extract_from_email html_two_lines (py "Market Notes")
            (py "notes@example.com") (py "2026-01-05")) = 1 /\
  title (List.nth 0 (extract_from_email html_two_lines (py "Market Notes")
                       (py "notes@example.com") (py "2026-01-05"))
           (article_with_url [])) = py "Newsletter".
Proof.
  assert (Hsec : _extract_by_sections (BeautifulSoup html_two_lines) = [])
    by (vm_compute; reflexivity).
  assert (Hlinks : _extract_by_links (BeautifulSoup html_two_lines) = [])
    by (vm_compute; reflexivity).
  assert (Hlen : length (extract_from_email html_two_lines (py "Market Notes")
                           (py "notes@example.com") (py "2026-01-05")) = 1)
    by (vm_compute; reflexivity).
  repeat apply conj; [exact Hsec|exact Hlinks|exact Hlen|].
  exact (proj1 (returned_fallback_article_is_titled_newsletter _ _ _ _ _
                  Hsec Hlinks (nth_0_In _ (article_with_url []) _ Hlen))).
Defined.

End OnTwoLinesAgain.

(** ** More on the strategies *)

Section Counting.
Context {ext : Externals}.

Lemma sections_step_count (headings : nat) st (e : node) :
  at_most_one_per_heading headings st ->
  at_most_one_per_heading (headings + (if is_heading_tag e then 1 else 0))
    (sections_step st e).
Proof.
  destruct st as [articles current]. unfold at_most_one_per_heading.
  cbn [fst snd]. intros Hc. unfold sections_step.
  destruct e as [s|name attrs cs]; cbn [is_heading_tag].
  - destruct current; cbn [fst snd]; lia.
  - destruct (is_heading name).
    + destruct current; cbn [fst snd]; rewrite ?length_app; cbn [length]; lia.
    + destruct current; cbn [fst snd]; lia.
Qed.

Lemma sections_loop_count (l : list node) (headings : nat) st :
  at_most_one_per_heading headings st ->
  at_most_one_per_heading (headings + length (List.filter is_heading_tag l))
    (fold_left sections_step l st).
Proof.
  revert headings st. induction l as [|e l IH]; intros headings st Hc.
  - cbn [fold_left List.filter length]. rewrite Nat.add_0_r. exact Hc.
  - cbn [fold_left List.filter].
    pose proof (IH _ _ (sections_step_count headings st e Hc)) as Hn.
    destruct (is_heading_tag e); cbn [length].
    + replace (headings + S (length (List.filter is_heading_tag l)))
        with (headings + 1 + length (List.filter is_heading_tag l)) by lia.
      exact Hn.
    + rewrite Nat.add_0_r in Hn. exact Hn.
Qed.

(** X14. Section-based extraction yields at most one article per [h2]
    or [h3] tag among the direct children of the body. *)
Theorem at_most_one_section_article_per_heading (soup : node) :
  length (_extract_by_sections soup) <=
  length (List.filter is_heading_tag (children (body_of soup))).
Proof.
  unfold _extract_by_sections, body_of.
  pose proof (sections_loop_count
                (children (default soup (find (py "body") soup))) 0 ([], None))
    as Hc.
  destruct (fold_left _ _ _) as [articles current].
  unfold at_most_one_per_heading in Hc. cbn [fst snd length] in Hc.
  specialize (Hc ltac:(lia)).
  etransitivity; [apply List.filter_length_le|].
  destruct current; rewrite ?length_app; cbn [length]; lia.
Qed.

Lemma links_step_keeps st e (a : Article) :
  In a (fst st) -> In a (fst (links_step st e)).
Proof.
  destruct st as [articles seen]. cbn [fst]. intros Ha. unfold links_step.
  destruct (negb _); [exact Ha|]. destruct (_is_noise_url _ _); [exact Ha|].
  destruct (bool_decide _); [exact Ha|]. destruct (_ || _); [exact Ha|].
  cbn [fst]. apply in_or_app. left. exact Ha.
Qed.

(** X15. The counterpart of the short first anchor: when the first
    anchor that carries the URL [u] and passes the noise test has an anchor
    text of 10 characters or more, [_extract_by_links] returns an article
    with the URL [u], titled with that anchor text, whose content is the
    text of the anchor's content block. *)
Theorem long_first_anchor_yields_article
        (soup : node) (u : pystr) (a_tag : element) :
  first_occurrence u soup = Some a_tag ->
  10 <= length (get_text [] true (fst a_tag)) ->
  In (link_article (get_text [] true (fst a_tag)) u
        (get_text SPACE true (walk_up 5 (fst a_tag) (snd a_tag))))
     (_extract_by_links soup).
Proof.
  unfold first_occurrence, _extract_by_links. intros Hfirst Hlong.
  destruct (find_some_split _ _ _ Hfirst) as (l1 & l2 & -> & Hocc & Hl1).
  rewrite fold_left_app. cbn [fold_left].
  apply (fold_left_invariant
           (fun st : list Article * gset pystr =>
              In (link_article (get_text [] true (fst a_tag)) u
                    (get_text SPACE true (walk_up 5 (fst a_tag) (snd a_tag))))
                 (fst st))).
  - assert (Hun : url_unseen u (fold_left links_step l1 ([], ∅))).
    { apply (fold_left_invariant (url_unseen u)).
      - split; [intros ? []|apply not_elem_of_empty].
      - intros st e He. apply links_step_unseen, Hl1, He. }
    destruct (fold_left links_step l1 ([], ∅)) as [articles seen].
    destruct Hun as [_ Hu]. cbn [snd] in Hu.
    unfold is_occurrence in Hocc.
    apply andb_true_iff in Hocc. destruct Hocc as [Hocc Hnoise].
    apply andb_true_iff in Hocc. destruct Hocc as [Heq Hhttp].
    apply str_eqb_eq in Heq. apply negb_true_iff in Hnoise.
    unfold links_step. rewrite Hhttp, Hnoise. cbn [negb]. rewrite Heq.
    rewrite bool_decide_eq_false_2 by exact Hu.
    replace (length (get_text [] true (fst a_tag)) <? 10)%nat with false
      by (symmetry; apply Nat.ltb_ge; exact Hlong).
    replace (nonempty (get_text [] true (fst a_tag))) with true
      by (destruct (get_text [] true (fst a_tag));
          [cbn [length] in Hlong; lia|reflexivity]).
    cbn [negb orb fst]. apply in_or_app. right. left. reflexivity.
  - intros st e _. apply links_step_keeps.
Qed.

End Counting.

(** ** The caller's streams *)

Section Streams.
Context {ext : Externals}.

Lemma extracted_type (newsletters : list Email) (a : Article) :
  In a (extract_all newsletters) ->
  article_type a = Some (py "essay") \/ article_type a = Some (py "link").
Proof.
  unfold extract_all. intros Hin. apply in_flat_map in Hin.
  destruct Hin as (nl & _ & Hin).
  destruct (returned_article_origin _ _ _ _ _ Hin) as (a0 & -> & _).
  cbn [stamp article_type].
  destruct (classify_essay_or_link a0 (sender_email nl)
              (_is_essay_newsletter (sender_name nl))) as [-> | ->]; auto.
Qed.

Lemma some_essay_is_not_some_link : Some (py "essay") <> Some (py "link").
Proof. intros H. apply essay_is_not_link. congruence. Qed.

Lemma streams_length (l : list Article) :
  (forall a, In a l ->
             article_type a = Some (py "essay") \/
             article_type a = Some (py "link")) ->
  length (essays_of l) + length (links_of l) = length l.
Proof.
  unfold essays_of, links_of.
  induction l as [|a l IH]; [reflexivity|]. intros Htypes.
  specialize (IH (fun b Hb => Htypes b (or_intror Hb))).
  cbn [List.filter].
  destruct (Htypes a (or_introl eq_refl)) as [Ht | Ht]; rewrite Ht.
  - rewrite bool_decide_eq_true_2 by reflexivity.
    rewrite bool_decide_eq_false_2 by exact some_essay_is_not_some_link.
    cbn [length]. lia.
  - rewrite bool_decide_eq_false_2
      by (intros E; exact (some_essay_is_not_some_link (eq_sym E))).
    rewrite bool_decide_eq_true_2 by reflexivity.
    cbn [length]. lia.
Qed.

(** X16. The two streams [main.py] splits the extracted articles into
    lose and share nothing: for any batch of emails, every extracted article
    is in the essays or in the links, none is in both, and the two streams
    together are as long as the list of all articles. *)
Theorem streams_partition_extracted_articles (newsletters : list Email) :
  length (essays_of (extract_all newsletters))
  + length (links_of (extract_all newsletters))
  = length (extract_all newsletters) /\
  (forall a, In a (extract_all newsletters) ->
             In a (essays_of (extract_all newsletters)) \/
             In a (links_of (extract_all newsletters))) /\
  (forall a, In a (essays_of (extract_all newsletters)) ->
             ~ In a (links_of (extract_all newsletters))).
Proof.
  split; [apply streams_length, extracted_type|]. split.
  - intros a Hin. unfold essays_of, links_of.
    destruct (extracted_type _ _ Hin) as [Ht | Ht]; [left|right];
      apply filter_In; (split; [exact Hin|]);
      apply bool_decide_eq_true_2; exact Ht.
  - unfold essays_of, links_of. intros a He Hl.
    apply filter_In in He. destruct He as [_ He].
    apply filter_In in Hl. destruct Hl as [_ Hl].
    apply bool_decide_eq_true in He. apply bool_decide_eq_true in Hl.
    rewrite He in Hl. exact (some_essay_is_not_some_link Hl).
Qed.

End Streams.

Section OnNestedHeadingOnceMore.
#[local] Existing Instance mail_nested_heading.

(** X15, witness: the anchor of the nested document, of 33 characters. *)
Lemma long_first_anchor_yields_article_witness :
  exists a_tag,
    first_occurrence (py "https://example.com/news/2026/markets-report")
      doc_nested_heading = Some a_tag /\
    get_text [] true (fst a_tag) = py "Markets rallied today on earnings" /\
    10 <= length (get_text [] true (fst a_tag)) /\
    In (link_article (get_text [] true (fst a_tag))
          (py "https://example.com/news/2026/markets-report")
          (get_text SPACE true (walk_up 5 (fst a_tag) (snd a_tag))))
       (_extract_by_links doc_nested_heading).
Proof.
  assert (Hfirst : exists a_tag,
             first_occurrence (py "https://example.com/news/2026/markets-report")
               doc_nested_heading = Some a_tag /\
             get_text [] true (fst a_tag) = py "Markets rallied today on earnings")
    by (vm_compute; eexists; split; reflexivity).
  destruct Hfirst as (a_tag & Hfirst & Htext).
  assert (Hlong : 10 <= length (get_text [] true (fst a_tag)))
    by (rewrite Htext; vm_compute; lia).
  exists a_tag. repeat apply conj; [exact Hfirst|exact Htext|exact Hlong|].
  exact (long_first_anchor_yields_article doc_nested_heading
           (py "https://example.com/news/2026/markets-report") a_tag
           Hfirst Hlong).
Defined.

End OnNestedHeadingOnceMore.

Section OnSectionsOnceMore.
#[local] Existing Instance mail_sections.

(** X16, witness: the batch of the one email with two sections gives one
    essay and one link. *)
Lemma streams_partition_extracted_articles_witness :
  length (essays_of (extract_all [email_sections])) = 1 /\
  length (links_of (extract_all [email_sections])) = 1 /\
  length (essays_of (extract_all [email_sections]))
  + length (links_of (extract_all [email_sections]))
  = length (extract_all [email_sections]).
Proof.
  split; [vm_compute; reflexivity|]. split; [vm_compute; reflexivity|].
  exact (proj1 (streams_partition_extracted_articles [email_sections])).
Defined.

End OnSectionsOnceMore.
